(** * Quarterly financial reconstruction of [data/loader.py]

    A shallow embedding of [QuarterlyDataCollector]: the amount extractor
    ([_extract_raw_amounts] with its inner [find_amount]), the display-row
    builder ([_build_display_row]) and the collection driver
    ([collect_quarterly_data] with its inner [add_dicts] and [sub_dict]).

    Conventions of the embedding.
    - A Python [dict] is a [gmap] over [string] keys; texts are [string]s
      holding the UTF-8 bytes of the source literals.
    - A Python [float] is a [pyfloat]: an exact rational, [+inf]/[-inf] or
      [nan].  Rounding, overflow and the sign of zero are not modelled.
    - The two calls into [DartAPICollector] ([get_corp_code_enhanced] and
      [get_financial_statement]) reach the network; both catch every
      exception themselves, so they enter as total functions, variables of
      the section that holds the driver.
    - A filing frame is the list of its account lines.  The account-name
      column is taken to exist and to hold text or a missing value, as the
      API's schema has it. *)

From Stdlib Require Import ZArith QArith Qcanon String Ascii List Bool.
From stdpp Require Import base option gmap strings list fin_maps fin_sets pretty numbers.

Local Open Scope string_scope.

(** ** Python floats *)

Module PyFloat.

Inductive pyfloat :=
| Fin (q : Qc)
| Inf (negative : bool)
| NaN.

#[global] Instance pyfloat_eq_dec : EqDecision pyfloat.
Proof. solve_decision. Defined.

Definition of_Z (n : Z) : pyfloat := Fin (Qc_of_Z n).

(** [0.0] and the [int] 0 it is interchangeable with in the code read here. *)
Definition zero : pyfloat := of_Z 0.

(** Truth value of a float: everything but zero, [nan] included. *)
Definition truthy (x : pyfloat) : bool :=
  match x with
  | Fin q => negb (bool_decide (q = Qc_of_Z 0))
  | Inf _ | NaN => true
  end.

(** [x or 0], then [float(...)]: a falsy operand is replaced by 0. *)
Definition or0 (x : pyfloat) : pyfloat := if truthy x then x else zero.

Definition is_neg (q : Qc) : bool := bool_decide (q < Qc_of_Z 0)%Qc.

Definition fneg (x : pyfloat) : pyfloat :=
  match x with
  | Fin q => Fin (- q)%Qc
  | Inf s => Inf (negb s)
  | NaN => NaN
  end.

Definition fadd (x y : pyfloat) : pyfloat :=
  match x, y with
  | NaN, _ | _, NaN => NaN
  | Fin a, Fin b => Fin (a + b)%Qc
  | Inf s, Fin _ | Fin _, Inf s => Inf s
  | Inf s, Inf t => if Bool.eqb s t then Inf s else NaN
  end.

Definition fsub (x y : pyfloat) : pyfloat := fadd x (fneg y).

Definition fmul (x y : pyfloat) : pyfloat :=
  match x, y with
  | NaN, _ | _, NaN => NaN
  | Fin a, Fin b => Fin (a * b)%Qc
  | Inf s, Fin b | Fin b, Inf s =>
      if bool_decide (b = Qc_of_Z 0) then NaN else Inf (xorb s (is_neg b))
  | Inf s, Inf t => Inf (xorb s t)
  end.

(** True division.  Python raises [ZeroDivisionError] on a zero divisor; the
    code read here divides by the constants 10^12, 10^8 and by a divisor it
    has just tested to be truthy, so that case is never reached and is given
    the value [NaN]. *)
Definition fdiv (x y : pyfloat) : pyfloat :=
  match x, y with
  | NaN, _ | _, NaN => NaN
  | Fin a, Fin b => if bool_decide (b = Qc_of_Z 0) then NaN else Fin (a / b)%Qc
  | Inf s, Fin b => if bool_decide (b = Qc_of_Z 0) then NaN else Inf (xorb s (is_neg b))
  | Fin _, Inf _ => zero
  | Inf _, Inf _ => NaN
  end.

(** [sum(xs)]: a left fold that starts from the [int] 0. *)
Definition py_sum (xs : list pyfloat) : pyfloat := foldl fadd zero xs.

(** [x > 0] and [x < 0]: false on [nan]. *)
Definition gt0 (x : pyfloat) : bool :=
  match x with
  | Fin q => bool_decide (Qc_of_Z 0 < q)%Qc
  | Inf s => negb s
  | NaN => false
  end.

Definition lt0 (x : pyfloat) : bool :=
  match x with
  | Fin q => bool_decide (q < Qc_of_Z 0)%Qc
  | Inf s => s
  | NaN => false
  end.

End PyFloat.
Export PyFloat.

(** ** Python string operations *)

Module PyStr.

Definition code (c : ascii) : N := N_of_ascii c.

Definition is_digit (c : ascii) : bool := (48 <=? code c)%N && (code c <=? 57)%N.

(** [str.isspace] on the ASCII range: tab, line feed, vertical tab, form
    feed, carriage return, the four separators 0x1c-0x1f and space. *)
Definition is_space (c : ascii) : bool :=
  ((9 <=? code c)%N && (code c <=? 13)%N)
  || ((28 <=? code c)%N && (code c <=? 32)%N).

Definition is_paren (c : ascii) : bool :=
  Ascii.eqb c "("%char || Ascii.eqb c ")"%char.

Definition lower_char (c : ascii) : ascii :=
  if (65 <=? code c)%N && (code c <=? 90)%N then ascii_of_N (code c + 32) else c.

Fixpoint lower (s : string) : string :=
  match s with
  | EmptyString => EmptyString
  | String c t => String (lower_char c) (lower t)
  end.

(** [c in s] for a one-character [c]. *)
Fixpoint mem (c : ascii) (s : string) : bool :=
  match s with
  | EmptyString => false
  | String d t => Ascii.eqb c d || mem c t
  end.

(** [s.replace(c, '')] for a one-character [c]. *)
Fixpoint remove (c : ascii) (s : string) : string :=
  match s with
  | EmptyString => EmptyString
  | String d t => if Ascii.eqb c d then remove c t else String d (remove c t)
  end.

Fixpoint lstrip (p : ascii -> bool) (s : string) : string :=
  match s with
  | EmptyString => EmptyString
  | String c t => if p c then lstrip p t else s
  end.

Fixpoint rstrip (p : ascii -> bool) (s : string) : string :=
  match s with
  | EmptyString => EmptyString
  | String c t =>
      match rstrip p t with
      | EmptyString => if p c then EmptyString else String c EmptyString
      | t' => String c t'
      end
  end.

(** [s.strip(chars)]: both ends, every leading and trailing character of the
    class. *)
Definition strip (p : ascii -> bool) (s : string) : string := lstrip p (rstrip p s).

(** [needle in s]. *)
Fixpoint contains (needle s : string) : bool :=
  String.prefix needle s
  || match s with
     | EmptyString => false
     | String _ t => contains needle t
     end.

(** [Series.str.contains(keyword, case=False, na=False)] on one cell: a
    missing name never matches.  The keywords of the source hold no regular
    expression operator, so the match is a substring test; case is folded on
    the ASCII letters. *)
Definition str_contains (keyword : string) (cell : option string) : bool :=
  match cell with
  | Some name => contains (lower keyword) (lower name)
  | None => false
  end.

(** *** [float(text)] *)

Fixpoint span_digits (s : string) : string * string :=
  match s with
  | String c t =>
      if is_digit c then let '(d, r) := span_digits t in (String c d, r)
      else (EmptyString, s)
  | EmptyString => (EmptyString, EmptyString)
  end.

Fixpoint digits_value (acc : Z) (s : string) : Z :=
  match s with
  | EmptyString => acc
  | String c t => digits_value (10 * acc + (Z.of_N (code c) - 48)) t
  end.

(** Underscores are a grouping aid: each must stand between two digits. *)
Fixpoint drop_underscores (prev : ascii) (s : string) : option string :=
  match s with
  | EmptyString => if Ascii.eqb prev "_"%char then None else Some EmptyString
  | String c t =>
      if Ascii.eqb c "_"%char then
        if is_digit prev then drop_underscores c t else None
      else if Ascii.eqb prev "_"%char && negb (is_digit c) then None
      else String c <$> drop_underscores c t
  end.

(** 10^e as a float, for an exponent of either sign. *)
Definition pow10 (e : Z) : Qc :=
  if (0 <=? e)%Z then Qc_of_Z (10 ^ e) else (/ Qc_of_Z (10 ^ (- e)))%Qc.

(** The exponent part: empty, or [e]/[E], an optional sign and digits. *)
Definition exponent (s : string) : option Z :=
  match s with
  | EmptyString => Some 0%Z
  | String c t =>
      if Ascii.eqb (lower_char c) "e"%char then
        let '(neg, body) :=
          match t with
          | String "-"%char u => (true, u)
          | String "+"%char u => (false, u)
          | _ => (false, t)
          end in
        match span_digits body with
        | (String d ds, EmptyString) =>
            let n := digits_value 0 (String d ds) in
            Some (if neg then (- n)%Z else n)
        | _ => None
        end
      else None
  end.

(** A decimal literal without sign: digits, an optional point and digits
    (one of the two digit runs may be empty), an optional exponent. *)
Definition decimal (s : string) : option pyfloat :=
  s ← drop_underscores "000"%char s;
  let '(ip, r1) := span_digits s in
  let '(fp, r2) :=
    match r1 with
    | String "."%char u => span_digits u
    | _ => (EmptyString, r1)
    end in
  match ip ++ fp with
  | EmptyString => None
  | String _ _ as ds =>
      e ← exponent r2;
      Some (Fin (Qc_of_Z (digits_value 0 ds)
                 * pow10 (e - Z.of_nat (String.length fp)))%Qc)
  end.

Definition float_unsigned (s : string) : option pyfloat :=
  let l := lower s in
  if String.eqb l "inf" || String.eqb l "infinity" then Some (Inf false)
  else if String.eqb l "nan" then Some NaN
  else decimal s.

(** [float(s)] on a text: surrounding white space, an optional sign, then
    a decimal literal or one of the names of the non-finite floats.  [None]
    stands for [ValueError].  Digits and spaces outside ASCII are not
    modelled. *)
Definition py_float (s : string) : option pyfloat :=
  match strip is_space s with
  | String c u =>
      if Ascii.eqb c "-"%char then fneg <$> float_unsigned u
      else if Ascii.eqb c "+"%char then float_unsigned u
      else float_unsigned (String c u)
  | EmptyString => float_unsigned EmptyString
  end.

(** [s.replace(a, b)] for one-character [a] and [b]. *)
Fixpoint replace (a b : ascii) (s : string) : string :=
  match s with
  | EmptyString => EmptyString
  | String c t => String (if Ascii.eqb a c then b else c) (replace a b t)
  end.

(** [sep.join(items)] *)
Fixpoint join (sep : string) (items : list string) : string :=
  match items with
  | [] => EmptyString
  | [s] => s
  | s :: rest => s ++ sep ++ join sep rest
  end.

End PyStr.

(** ** The collector *)

Module QuarterlyDataCollector.
Import PyStr.

(** *** Frames *)

(** One account line of a filing, with the three cells the collector reads.
    A cell is [None] where the frame holds a missing value; a cell that is
    there is kept as the text [str] gives for it. *)
Record account_line := {
  account_nm : option string;
  thstrm_amount : option string;
  thstrm_add_amount : option string
}.

(** The frame [pd.DataFrame(res["list"])]: a column is named by its
    accessor, and the frame has the column when some line carries it. *)
Definition DataFrame := list account_line.
Definition column := account_line -> option string.

Definition empty (df : DataFrame) : bool :=
  match df with [] => true | _ :: _ => false end.

Definition has_column (c : column) (df : DataFrame) : bool :=
  existsb (fun r => bool_decide (is_Some (c r))) df.

(** [df[df['account_nm'].str.contains(keyword, case=False, na=False)]] *)
Definition matching (df : DataFrame) (keyword : string) : DataFrame :=
  List.filter (fun r => str_contains keyword (account_nm r)) df.

(** [line.get(column, '0')] followed by [str]: the default when the frame
    has no such column, and the text of a missing value otherwise. *)
Definition get_text (df : DataFrame) (c : column) (r : account_line) : string :=
  if has_column c df then default "nan" (c r) else "0".

(** *** Amount extraction *)

(** The body of the [try] block of [find_amount], from [str(raw)] on;
    [None] stands for the exception [float] raises. *)
Definition parse_amount (raw : string) : option pyfloat :=
  let val := remove ","%char raw in
  let val :=
    if mem "("%char val && mem ")"%char val
    then "-" ++ strip is_paren val
    else val in
  if String.eqb (strip is_space val) "-" || String.eqb (strip is_space val) ""
  then Some zero
  else py_float val.

Fixpoint find_amount (df : DataFrame) (c : column) (keywords : list string) : pyfloat :=
  match keywords with
  | [] => zero
  | keyword :: rest =>
      match matching df keyword with
      | [] => find_amount df c rest
      | r :: _ =>
          match parse_amount (get_text df c r) with
          | Some x => x
          | None => find_amount df c rest
          end
      end
  end.

(** The canonical metric keys with their synonym lists, in the order of the
    dictionary display of [_extract_raw_amounts]. *)
Definition metrics : list (string * list string) :=
  [ ("매출액",     ["매출액"; "revenue"; "sales"]);
    ("매출원가",   ["매출원가"; "cost of sales"]);
    ("매출총이익", ["매출총이익"; "gross profit"; "총이익"]);
    ("영업이익",   ["영업이익"; "operating profit"; "영업손익"]);
    ("당기순이익", ["당기순이익"; "net income"; "순이익"]);
    ("판관비",     ["판매비와관리비"; "판관비"; "selling and administrative"]);
    ("판매비",     ["판매비"; "selling expenses"]);
    ("관리비",     ["관리비"; "administrative expenses"]) ].

Definition metric_keys : list string := fst <$> metrics.

Definition _extract_raw_amounts (df : DataFrame) (c : column) : gmap string pyfloat :=
  list_to_map ((fun '(key, keywords) => (key, find_amount df c keywords)) <$> metrics).

(** *** Display rows *)

Inductive value :=
| VStr (s : string)
| VInt (n : Z)
| VFloat (x : pyfloat).

#[global] Instance value_eq_dec : EqDecision value.
Proof. solve_decision. Defined.

(** [if raw.get(key): row[field] = raw[key] / unit] *)
Definition scaled (raw : gmap string pyfloat) (key field : string) (unit : Z)
    (row : gmap string value) : gmap string value :=
  match raw !! key with
  | Some x => if truthy x then <[field := VFloat (fdiv x (of_Z unit))]> row else row
  | None => row
  end.

(** [if key in raw: row[field] = (raw[key] / sales) * 100] *)
Definition ratio (raw : gmap string pyfloat) (sales : pyfloat) (key field : string)
    (row : gmap string value) : gmap string value :=
  match raw !! key with
  | Some x => <[field := VFloat (fmul (fdiv x sales) (of_Z 100))]> row
  | None => row
  end.

Definition text_truthy (s : option string) : bool :=
  match s with
  | Some (String _ _) => true
  | _ => false
  end.

Definition _build_display_row (company_name : string) (year : Z) (label : string)
    (raw : gmap string pyfloat) (report_name : option string) : gmap string value :=
  let row : gmap string value :=
    <["분기" := VStr label]> (<["연도" := VInt year]> (<["회사" := VStr company_name]> ∅)) in
  let row :=
    if text_truthy report_name
    then <["보고서구분" := VStr (default "" report_name)]> row
    else row in
  let row := scaled raw "매출액"     "매출액(조원)"     1000000000000 row in
  let row := scaled raw "매출원가"   "매출원가(조원)"   1000000000000 row in
  let row := scaled raw "매출총이익" "매출총이익(조원)" 1000000000000 row in
  let row := scaled raw "영업이익"   "영업이익(억원)"   100000000 row in
  let row := scaled raw "당기순이익" "당기순이익(억원)" 100000000 row in
  let row := scaled raw "판관비"     "판관비(억원)"     100000000 row in
  let sales := default zero (raw !! "매출액") in
  if truthy sales then
    let row := ratio raw sales "영업이익"   "영업이익률(%)"   row in
    let row := ratio raw sales "매출총이익" "매출총이익률(%)" row in
    let row := ratio raw sales "당기순이익" "순이익률(%)"     row in
    let row := ratio raw sales "매출원가"   "매출원가율(%)"   row in
    row
  else row.

(** *** Sums and differences of amount dictionaries *)

(** Truth value of a dictionary: it has a key. *)
Definition dict_truthy {V} (d : gmap string V) : bool := negb (bool_decide (dom d = ∅)).

(** [d.get(k, 0)] *)
Definition get0 (d : gmap string pyfloat) (k : string) : pyfloat := default zero (d !! k).

Definition add_dicts (dicts : list (gmap string pyfloat)) : gmap string pyfloat :=
  let live := List.filter dict_truthy dicts in
  let keys : gset string := ⋃ (dom <$> live) in
  set_to_map (fun k => (k, py_sum ((fun d => or0 (get0 d k)) <$> live))) keys.

Definition sub_dict (a b : gmap string pyfloat) : gmap string pyfloat :=
  let keys : gset string := dom a ∪ dom b in
  set_to_map (fun k => (k, fsub (or0 (get0 a k)) (or0 (get0 b k)))) keys.

(** *** Collection *)

(** [self.report_codes], in insertion order. *)
Definition report_codes : list (string * string) :=
  [ ("Q1", "11013"); ("Q2", "11012"); ("Q3", "11014"); ("Q4", "11011") ].

(** [curr.get(q, {})] *)
Definition quarter (curr : gmap string (gmap string pyfloat)) (q : string)
    : gmap string pyfloat :=
  default ∅ (curr !! q).

(** Step (3): the fourth quarter is the annual filing less the three
    quarters; without an annual filing it is the empty dictionary. *)
Definition derived_q4 (curr : gmap string (gmap string pyfloat)) : gmap string pyfloat :=
  match curr !! "Q4" with
  | Some annual =>
      sub_dict annual (add_dicts [quarter curr "Q1"; quarter curr "Q2"; quarter curr "Q3"])
  | None => ∅
  end.

(** Step (4): the table, one row per slice that has data. *)
Definition build_rows (company_name : string) (year : Z)
    (curr cum : gmap string (gmap string pyfloat)) : list (gmap string value) :=
  let q1 := quarter curr "Q1" in
  let q2 := quarter curr "Q2" in
  let q3 := quarter curr "Q3" in
  let q4 := derived_q4 curr in
  let y := pretty year in
  (if dict_truthy q1
   then [_build_display_row company_name year (y ++ "Q1") q1 (Some "1분기(당기)")] else [])
  ++ (if dict_truthy q2
      then [_build_display_row company_name year (y ++ "Q2") q2 (Some "2분기(당기)")] else [])
  ++ (if dict_truthy q3
      then [_build_display_row company_name year (y ++ "Q3") q3 (Some "3분기(당기)")] else [])
  ++ (if dict_truthy q4
      then [_build_display_row company_name year (y ++ "Q4") q4 (Some "4분기(당기)")] else [])
  ++ match cum !! "Q4" with
     | Some annual =>
         [_build_display_row company_name year (y ++ " 연간") annual (Some "연간(사업보고서)")]
     | None => []
     end.

Section Collect.

(** [DartAPICollector.get_corp_code_enhanced(company_name)]: the corporation
    code, or [None]. *)
Variable get_corp_code_enhanced : string -> option string.

(** [DartAPICollector.get_financial_statement(corp_code, bsns_year,
    reprt_code)]: the filing's frame, empty when there is none. *)
Variable get_financial_statement : string -> string -> string -> DataFrame.

(** One turn of the loop of step (1) over [report_codes]. *)
Definition collect_step (corp_code : string) (year : Z)
    (acc : gmap string (gmap string pyfloat) * gmap string (gmap string pyfloat))
    (entry : string * string)
    : gmap string (gmap string pyfloat) * gmap string (gmap string pyfloat) :=
  let '(curr, cum) := acc in
  let '(q, code) := entry in
  let df := get_financial_statement corp_code (pretty year) code in
  if empty df then (curr, cum)
  else
    let c := _extract_raw_amounts df thstrm_amount in
    (<[q := c]> curr,
     <[q := if has_column thstrm_add_amount df
            then _extract_raw_amounts df thstrm_add_amount
            else c]> cum).

Definition collect_raw (corp_code : string) (year : Z)
    : gmap string (gmap string pyfloat) * gmap string (gmap string pyfloat) :=
  foldl (collect_step corp_code year) (∅, ∅) report_codes.

(** The returned table is the list of its rows; [pd.DataFrame()] is the
    empty list. *)
Definition collect_quarterly_data (company_name : string) (year : Z)
    : list (gmap string value) :=
  if text_truthy (get_corp_code_enhanced company_name) then
    let corp_code := default "" (get_corp_code_enhanced company_name) in
    let '(curr, cum) := collect_raw corp_code year in
    if dict_truthy curr then build_rows company_name year curr cum
    else []
  else [].

End Collect.

(** *** The second extraction path: [_extract_key_metrics] *)

Module KeyMetrics.

(** The argument of [float] in the inner [find_amount] of
    [_extract_key_metrics]: separators dropped, every dash turned into the
    digit zero. *)
Definition parse_amount (raw : string) : option pyfloat :=
  py_float (replace "-"%char "0"%char (remove ","%char raw)).

(** The inner [find_amount] of [_extract_key_metrics].  The subscript
    [line['thstrm_amount']] raises when the frame has no such column, and the
    bare [except] passes on to the next keyword. *)
Fixpoint find_amount (df : DataFrame) (keywords : list string) : pyfloat :=
  match keywords with
  | [] => zero
  | keyword :: rest =>
      match matching df keyword with
      | [] => find_amount df rest
      | r :: _ =>
          if has_column thstrm_amount df then
            match parse_amount (default "nan" (thstrm_amount r)) with
            | Some x => x
            | None => find_amount df rest
            end
          else find_amount df rest
      end
  end.

(** [if amount > 0: metrics[field] = amount / unit] *)
Definition put_positive (amount : pyfloat) (field : string) (unit : Z)
    (metrics : gmap string value) : gmap string value :=
  if gt0 amount then <[field := VFloat (fdiv amount (of_Z unit))]> metrics else metrics.

(** [if den in metrics and num in metrics and metrics[den] > 0:
    metrics[field] = formula(metrics[num], metrics[den])]; both fields hold
    floats when they are there. *)
Definition put_ratio (den num field : string) (formula : pyfloat -> pyfloat -> pyfloat)
    (metrics : gmap string value) : gmap string value :=
  match metrics !! den, metrics !! num with
  | Some (VFloat d), Some (VFloat n) =>
      if gt0 d then <[field := VFloat (formula n d)]> metrics else metrics
  | _, _ => metrics
  end.

(** [(num * 100) / (den * 10_000)]: hundred-millions over trillions. *)
Definition percent_mixed (n d : pyfloat) : pyfloat :=
  fdiv (fmul n (of_Z 100)) (fmul d (of_Z 10000)).

(** [(num / den) * 100]: both in trillions. *)
Definition percent_same (n d : pyfloat) : pyfloat :=
  fmul (fdiv n d) (of_Z 100).

Definition _extract_key_metrics (df : DataFrame) (quarter : string) (year : Z)
    : option (gmap string value) :=
  let quarter_display := pretty year ++ quarter in
  let metrics : gmap string value := <["분기" := VStr quarter_display]> ∅ in
  let revenue := find_amount df ["매출액"; "revenue"; "sales"] in
  let cost_of_sales := find_amount df ["매출원가"; "cost of sales"; "매출원가"] in
  let gross_profit := find_amount df ["매출총이익"; "gross profit"; "총이익"] in
  let operating_profit := find_amount df ["영업이익"; "operating profit"; "영업손익"] in
  let net_income := find_amount df ["당기순이익"; "net income"; "순이익"] in
  let selling_expenses := find_amount df ["판매비"; "selling expenses"] in
  let administrative_expenses := find_amount df ["관리비"; "administrative expenses"] in
  let sg_and_a := find_amount df ["판매비와관리비"; "판관비"; "selling and administrative"] in
  let metrics := put_positive revenue "매출액(조원)" 1000000000000 metrics in
  let metrics := put_positive cost_of_sales "매출원가(조원)" 1000000000000 metrics in
  let metrics := put_positive gross_profit "매출총이익(조원)" 1000000000000 metrics in
  let metrics := put_positive operating_profit "영업이익(억원)" 100000000 metrics in
  let metrics := put_positive net_income "당기순이익(억원)" 100000000 metrics in
  let metrics := put_positive selling_expenses "판매비(억원)" 100000000 metrics in
  let metrics := put_positive administrative_expenses "관리비(억원)" 100000000 metrics in
  let metrics := put_positive sg_and_a "판관비(억원)" 100000000 metrics in
  let metrics := put_ratio "매출액(조원)" "영업이익(억원)" "영업이익률(%)" percent_mixed metrics in
  let metrics := put_ratio "매출액(조원)" "매출총이익(조원)" "매출총이익률(%)" percent_same metrics in
  let metrics := put_ratio "매출액(조원)" "당기순이익(억원)" "순이익률(%)" percent_mixed metrics in
  let metrics := put_ratio "매출액(조원)" "매출원가(조원)" "매출원가율(%)" percent_same metrics in
  if bool_decide (1 < size metrics) then Some metrics else None.

End KeyMetrics.

End QuarterlyDataCollector.

(** ** The filings collector

    The company search of [DartAPICollector.get_corp_code_enhanced], past
    the download, and [get_company_financials_auto] with the source table it
    keeps in [self.source_tracking], threaded through the call. *)

Module DartAPICollector.
Import QuarterlyDataCollector.

(** One entry of [all_companies]: the texts of the three elements of a
    [list] node of the corporation-code file.  A text is [None] for an empty
    element; the stock code is also [None] when the element is missing. *)
Record company := {
  name : option string;
  code : option string;
  stock_code : option string
}.

Section Search.

(** [str.isdigit], as the runtime answers it. *)
Variable isdigit : string -> bool.

(** The first company whose field [key] is the searched name. *)
Definition first_with (key : company -> option string) (search_name : string)
    (all_companies : list company) : option company :=
  List.find (fun c => bool_decide (key c = Some search_name)) all_companies.

(** The search loops of [get_corp_code_enhanced]: for each searched name,
    the stock codes when the name is made of digits, then the exact names;
    the first hit returns its code, whatever it holds. *)
Fixpoint search (search_names : list string) (all_companies : list company)
    : option string :=
  match search_names with
  | [] => None
  | search_name :: rest =>
      match (if isdigit search_name
             then first_with stock_code search_name all_companies
             else None) with
      | Some c => code c
      | None =>
          match first_with name search_name all_companies with
          | Some c => code c
          | None => search rest all_companies
          end
      end
  end.

(** [get_corp_code_enhanced]: [company_name_mapping] is the table of the
    configuration, and [download] the company list read from the downloaded
    file, [None] when the request, the archive or the parse raises. *)
Definition get_corp_code_enhanced (company_name_mapping : gmap string (list string))
    (download : option (list company)) (company_name : string) : option string :=
  let search_names := default [company_name] (company_name_mapping !! company_name) in
  match download with
  | Some all_companies => search search_names all_companies
  | None => None
  end.

End Search.

(** One entry of [source_tracking]. *)
Record source_info := {
  company_code : string;
  report_type : string;
  year : string;
  rcept_no : string;
  dart_url : string
}.

Definition report_type_map : gmap string string :=
  list_to_map [ ("11011", "사업보고서"); ("11014", "3분기보고서");
                ("11012", "반기보고서"); ("11013", "1분기보고서") ].

Definition _get_rcept_no (corp_code bsns_year report_code : string) : string :=
  corp_code ++ "_" ++ bsns_year ++ "_" ++ report_code ++ "_sample".

(** [_save_source_info]: the tracking table with the company's entry set. *)
Definition _save_source_info (source_tracking : gmap string source_info)
    (company_name corp_code report_code bsns_year rcept_no : string)
    : gmap string source_info :=
  <[company_name :=
      {| company_code := corp_code;
         report_type := default "재무제표" (report_type_map !! report_code);
         year := bsns_year;
         rcept_no := rcept_no;
         dart_url := "https://dart.fss.or.kr/dsaf001/main.do?rcpNo=" ++ rcept_no |}]>
    source_tracking.

(** The report codes in the order [get_company_financials_auto] tries them:
    annual, third quarter, half year, first quarter. *)
Definition auto_report_codes : list string := ["11011"; "11014"; "11012"; "11013"].

Section Auto.

(** [self.get_corp_code_enhanced(company_name)], with the download it makes,
    and [self.get_financial_statement(corp_code, bsns_year, reprt_code)]:
    the frame fetched, empty when there is none. *)
Variable resolve : string -> option string.
Variable get_financial_statement : string -> string -> string -> DataFrame.

(** The loop of [get_company_financials_auto] over the report codes: the
    returned frame, if any, and the tracking table after the call. *)
Fixpoint first_statement (source_tracking : gmap string source_info)
    (company_name corp_code bsns_year : string) (report_codes : list string)
    : option DataFrame * gmap string source_info :=
  match report_codes with
  | [] => (None, source_tracking)
  | report_code :: rest =>
      let df := get_financial_statement corp_code bsns_year report_code in
      if empty df
      then first_statement source_tracking company_name corp_code bsns_year rest
      else
        let rcept_no := _get_rcept_no corp_code bsns_year report_code in
        (Some df,
         _save_source_info source_tracking company_name corp_code report_code
           bsns_year rcept_no)
  end.

Definition get_company_financials_auto (source_tracking : gmap string source_info)
    (company_name : string) (bsns_year : Z)
    : option DataFrame * gmap string source_info :=
  if text_truthy (resolve company_name) then
    first_statement source_tracking company_name (default "" (resolve company_name))
      (pretty bsns_year) auto_report_codes
  else (None, source_tracking).

End Auto.

End DartAPICollector.

(** ** The news collector

    The keyword scoring of [SKNewsCollector].  [str.lower] is [lower], which
    folds the ASCII letters: the keywords hold no other cased letter, and
    cased letters outside ASCII in a title are not modelled.  The fetching
    of sheets and feeds, [_clean_text] and [_parse_date] are not embedded. *)

Module SKNewsCollector.
Import PyStr.

Definition company_keywords : list string :=
  ["SK에너지"; "SK이노베이션"; "GS칼텍스"; "HD현대오일뱅크"; "현대오일뱅크"; "S-Oil";
   "에쓰오일"; "SK"; "에스케이"].

Definition industry_keywords : list string :=
  ["정유"; "석유화학"; "에너지"; "화학"; "원유"; "나프타"; "휘발유"; "경유"; "정제마진";
   "정유업계"; "석유화학사"; "정유사"; "석유"; "유가"; "WTI"; "두바이유"; "브렌트유"].

Definition business_keywords : list string :=
  ["영업이익"; "실적"; "수익성"; "투자"; "사업확장"; "원가절감"; "효율성"; "매출"; "손실";
   "매출액"; "영업손익"; "기업"; "경제"; "주식"; "증시"; "시장"].

Definition trend_keywords : list string :=
  ["탄소중립"; "ESG"; "친환경"; "수소"; "신재생에너지"; "바이오"; "디지털전환";
   "스마트팩토리"; "그린"; "친환경"].

(** A news frame is the list of its rows, a row the texts [str] gives for
    its cells, by column; the rows of one frame have the same columns. *)
Definition news_row := gmap string string.

(** [df.empty]: no row, or no column. *)
Definition news_empty (df : list news_row) : bool :=
  match df with
  | [] => true
  | row :: _ => bool_decide (dom row = ∅)
  end.

(** [str(row.get(key, ''))] *)
Definition cell (row : news_row) (key : string) : string := default "" (row !! key).

(** [kw.lower() in text] *)
Definition occurs (text kw : string) : bool := contains (lower kw) text.

(** [sum(1 for kw in keywords if kw.lower() in text)] *)
Definition matches (keywords : list string) (text : string) : Z :=
  Z.of_nat (length (List.filter (occurs text) keywords)).

(** The text both row scores read: lowered title, a space, lowered summary. *)
Definition full_text (row : news_row) : string :=
  lower (cell row "제목") ++ " " ++ lower (cell row "요약").

(** The test of the loop body of [_filter_relevant_news]. *)
Definition relevant (row : news_row) : bool :=
  let text := full_text row in
  let keyword_count :=
    (matches company_keywords text * 2 + matches industry_keywords text
     + matches business_keywords text + matches trend_keywords text)%Z in
  if (1 <=? keyword_count)%Z then true
  else existsb (fun kw => contains kw text)
         ["기업"; "경제"; "주식"; "투자"; "매출"; "실적"; "영업이익"].

Definition _filter_relevant_news (df : list news_row) : list news_row :=
  if news_empty df then df else List.filter relevant df.

(** [for kw in keywords: if kw.lower() in text: score += weight] *)
Definition add_weight (weight : Z) (keywords : list string) (text : string) (score : Z) : Z :=
  foldl (fun score kw => if occurs text kw then (score + weight)%Z else score) score keywords.

Definition _calc_relevance_score (row : news_row) : Z :=
  let text := full_text row in
  add_weight 1 trend_keywords text
    (add_weight 2 business_keywords text
       (add_weight 3 industry_keywords text
          (add_weight 10 company_keywords text 0%Z))).

(** [for term, weight in terms.items(): if term in text: score += weight] *)
Definition add_terms (terms : list (string * Z)) (text : string) (score : Z) : Z :=
  foldl (fun score '(term, weight) =>
           if contains term text then (score + weight)%Z else score) score terms.

Definition business_terms : list (string * Z) :=
  [ ("영업이익", 3); ("실적", 3); ("손실", 3); ("투자", 2); ("매출", 2);
    ("수익성", 2); ("사업확장", 2); ("원가절감", 2); ("효율성", 2) ]%Z.

Definition _calc_importance (text : string) : Z :=
  let text_lower := lower text in
  Z.min (add_terms business_terms text_lower 0%Z) 10.

(** [any(term in text for term in terms)] *)
Definition any_in (terms : list string) (text : string) : bool :=
  existsb (fun term => contains term text) terms.

Definition _calc_sk_relevance (text : string) : Z :=
  let text_lower := lower text in
  let score := 0%Z in
  let score :=
    if any_in ["sk"; "에스케이"; "sk에너지"; "sk이노베이션"] text_lower
    then (score + 5)%Z else score in
  let score :=
    if any_in ["정유"; "석유"; "화학"; "에너지"] text_lower
    then (score + 2)%Z else score in
  let score :=
    if any_in ["gs칼텍스"; "현대오일뱅크"; "s-oil"; "에쓰오일"] text_lower
    then (score + 1)%Z else score in
  Z.min score 10.

Definition company_mapping : list (string * string) :=
  [ ("sk에너지", "SK에너지"); ("sk이노베이션", "SK이노베이션"); ("gs칼텍스", "GS칼텍스");
    ("hd현대오일뱅크", "HD현대오일뱅크"); ("현대오일뱅크", "HD현대오일뱅크");
    ("s-oil", "S-Oil"); ("에쓰오일", "S-Oil") ].

Definition _extract_company (text : string) : string :=
  let text_lower := lower text in
  match List.find (fun '(key, _) => contains key text_lower) company_mapping with
  | Some (_, value) => value
  | None => "기타"
  end.

(** One loop of [_extract_keywords]: with [guard], a keyword already found
    is not appended again. *)
Definition collect_keywords (guard : bool) (keywords : list string) (text : string)
    (found_keywords : list string) : list string :=
  foldl (fun (found : list string) kw =>
           if occurs text kw && (negb guard || negb (bool_decide (kw ∈ found)))
           then (found ++ [kw])%list else found)
    found_keywords keywords.

Definition _extract_keywords (text : string) : string :=
  let text_lower := lower text in
  let found_keywords := collect_keywords false company_keywords text_lower [] in
  let found_keywords := collect_keywords true industry_keywords text_lower found_keywords in
  let found_keywords := collect_keywords true business_keywords text_lower found_keywords in
  join ", " (take 8 found_keywords).

End SKNewsCollector.

(** ** Vocabulary of the statements *)

Import PyStr QuarterlyDataCollector.

(** *** Texts *)

(** No character of the class [p] occurs in [s]. *)
Fixpoint free_of (p : ascii -> bool) (s : string) : Prop :=
  match s with
  | EmptyString => True
  | String c t => p c = false /\ free_of p t
  end.

(** The first character of an unsigned figure: a digit or the point. *)
Definition lead_char (c : ascii) : bool := is_digit c || Ascii.eqb c "."%char.

(** An unsigned figure: no parenthesis, and a digit or the point in front
    once the separators are dropped. *)
Definition unsigned_figure (s : string) : bool :=
  negb (mem "("%char s) && negb (mem ")"%char s)
  && match remove ","%char s with
     | String d _ => lead_char d
     | EmptyString => false
     end.

(** *** The extractor *)

(** What one synonym yields: the amount of the first line it matches, when
    there is such a line and its text parses. *)
Definition resolves (df : DataFrame) (c : column) (keyword : string) : option pyfloat :=
  r ← head (matching df keyword); parse_amount (get_text df c r).

(** *** Display rows *)

(** The identity fields of a row. *)
Definition identity_row (company_name : string) (year : Z) (label : string)
    (report_name : option string) : gmap string value :=
  let row : gmap string value :=
    <["분기" := VStr label]> (<["연도" := VInt year]> (<["회사" := VStr company_name]> ∅)) in
  if text_truthy report_name
  then <["보고서구분" := VStr (default "" report_name)]> row
  else row.

(** Every amount of the dictionary is zero. *)
Definition all_zero (raw : gmap string pyfloat) : Prop :=
  forall key x, raw !! key = Some x -> x = zero.

(** The amount under [key] is there and is not zero. *)
Definition nonzero_at (raw : gmap string pyfloat) (key : string) : Prop :=
  exists x, raw !! key = Some x /\ x <> zero.

(** The scaled amount a key gives rise to, if any. *)
Definition scaled_value (raw : gmap string pyfloat) (key : string) (unit : Z) : option value :=
  x ← raw !! key; if truthy x then Some (VFloat (fdiv x (of_Z unit))) else None.

(** The percentage a numerator key gives rise to, if any. *)
Definition ratio_value (raw : gmap string pyfloat) (key : string) : option value :=
  sales ← raw !! "매출액";
  if truthy sales
  then x ← raw !! key; Some (VFloat (fmul (fdiv x sales) (of_Z 100)))
  else None.

(** A scaled field of a row: there exactly when the source amount is not
    zero, and then the amount over the unit. *)
Definition scaled_rule (raw : gmap string pyfloat) (row : gmap string value)
    (key field : string) (unit : Z) : Prop :=
  (is_Some (row !! field) <-> nonzero_at raw key)
  /\ forall x, raw !! key = Some x -> x <> zero ->
       row !! field = Some (VFloat (fdiv x (of_Z unit))).

(** A ratio field of a row: there exactly when the revenue is not zero and
    the numerator key is in the dictionary, and then numerator over revenue
    times 100. *)
Definition ratio_rule (raw : gmap string pyfloat) (row : gmap string value)
    (key field : string) : Prop :=
  (is_Some (row !! field) <-> nonzero_at raw "매출액" /\ is_Some (raw !! key))
  /\ forall sales x, raw !! "매출액" = Some sales -> sales <> zero -> raw !! key = Some x ->
       row !! field = Some (VFloat (fmul (fdiv x sales) (of_Z 100))).

(** *** The reconciliation *)

(** Key-wise combination over the union of the keys, a missing key read as
    zero: the arithmetic of the reconciliation, as its description words it. *)
Definition keywise (op : pyfloat -> pyfloat -> pyfloat)
    (a b : gmap string pyfloat) : gmap string pyfloat :=
  merge (fun x y =>
           match x, y with
           | None, None => None
           | _, _ => Some (op (default zero x) (default zero y))
           end) a b.

(** [sum3]: the three quarters added key-wise. *)
Definition sum3 (q1 q2 q3 : gmap string pyfloat) : gmap string pyfloat :=
  keywise fadd (keywise fadd q1 q2) q3.

(** The all-zero amount dictionary over the canonical keys. *)
Definition zero_amounts : gmap string pyfloat :=
  gset_to_gmap zero (list_to_set metric_keys).

(** A quarter of the input, an absent one read as all zero. *)
Definition present (curr : gmap string (gmap string pyfloat)) (q : string)
    : gmap string pyfloat :=
  default zero_amounts (curr !! q).

(** *** The collection *)

(** The three quarters whose rows are built from the extracted amounts:
    quarter, report code, report label. *)
Definition direct_slices : list (string * string * string) :=
  [ ("Q1", "11013", "1분기(당기)"); ("Q2", "11012", "2분기(당기)");
    ("Q3", "11014", "3분기(당기)") ].

(** What a fetched frame contributes to [curr] and to [cum]. *)
Definition slice_curr (df : DataFrame) : option (gmap string pyfloat) :=
  if empty df then None else Some (_extract_raw_amounts df thstrm_amount).

Definition slice_cum (df : DataFrame) : option (gmap string pyfloat) :=
  if empty df then None
  else Some (if has_column thstrm_add_amount df
             then _extract_raw_amounts df thstrm_add_amount
             else _extract_raw_amounts df thstrm_amount).

(** The zero-amount claim for one slice: when its fetch returned a record
    and every extracted amount is zero, the table holds the row of identity
    fields for it. *)
Definition zero_slice_row (get_corp_code_enhanced : string -> option string)
    (get_financial_statement : string -> string -> string -> DataFrame)
    (company_name : string) (year : Z) (q code report : string) : Prop :=
  let df := get_financial_statement (default "" (get_corp_code_enhanced company_name))
              (pretty year) code in
  text_truthy (get_corp_code_enhanced company_name) = true ->
  empty df = false ->
  all_zero (_extract_raw_amounts df thstrm_amount) ->
  identity_row company_name year (pretty year ++ q) (Some report)
  ∈ collect_quarterly_data get_corp_code_enhanced get_financial_statement
      company_name year.

(** *** The second extraction path *)

(** Every character of the text is a decimal digit. *)
Fixpoint all_digits (s : string) : bool :=
  match s with
  | EmptyString => true
  | String c t => is_digit c && all_digits t
  end.

(** The eight scaled fields of [_extract_key_metrics]: field, unit and the
    synonyms searched for the amount. *)
Definition key_metrics_fields : list (string * Z * list string) :=
  [ ("매출액(조원)", 1000000000000%Z, ["매출액"; "revenue"; "sales"]);
    ("매출원가(조원)", 1000000000000%Z, ["매출원가"; "cost of sales"; "매출원가"]);
    ("매출총이익(조원)", 1000000000000%Z, ["매출총이익"; "gross profit"; "총이익"]);
    ("영업이익(억원)", 100000000%Z, ["영업이익"; "operating profit"; "영업손익"]);
    ("당기순이익(억원)", 100000000%Z, ["당기순이익"; "net income"; "순이익"]);
    ("판매비(억원)", 100000000%Z, ["판매비"; "selling expenses"]);
    ("관리비(억원)", 100000000%Z, ["관리비"; "administrative expenses"]);
    ("판관비(억원)", 100000000%Z, ["판매비와관리비"; "판관비"; "selling and administrative"]) ].

(** The dictionary [_extract_key_metrics] has built when it decides what to
    return. *)
Definition key_metrics_map (df : DataFrame) (quarter : string) (year : Z)
    : gmap string value :=
  let quarter_display := pretty year ++ quarter in
  let metrics : gmap string value := <["분기" := VStr quarter_display]> ∅ in
  let revenue := KeyMetrics.find_amount df ["매출액"; "revenue"; "sales"] in
  let cost_of_sales := KeyMetrics.find_amount df ["매출원가"; "cost of sales"; "매출원가"] in
  let gross_profit := KeyMetrics.find_amount df ["매출총이익"; "gross profit"; "총이익"] in
  let operating_profit := KeyMetrics.find_amount df ["영업이익"; "operating profit"; "영업손익"] in
  let net_income := KeyMetrics.find_amount df ["당기순이익"; "net income"; "순이익"] in
  let selling_expenses := KeyMetrics.find_amount df ["판매비"; "selling expenses"] in
  let administrative_expenses := KeyMetrics.find_amount df ["관리비"; "administrative expenses"] in
  let sg_and_a := KeyMetrics.find_amount df ["판매비와관리비"; "판관비"; "selling and administrative"] in
  let metrics := KeyMetrics.put_positive revenue "매출액(조원)" 1000000000000 metrics in
  let metrics := KeyMetrics.put_positive cost_of_sales "매출원가(조원)" 1000000000000 metrics in
  let metrics := KeyMetrics.put_positive gross_profit "매출총이익(조원)" 1000000000000 metrics in
  let metrics := KeyMetrics.put_positive operating_profit "영업이익(억원)" 100000000 metrics in
  let metrics := KeyMetrics.put_positive net_income "당기순이익(억원)" 100000000 metrics in
  let metrics := KeyMetrics.put_positive selling_expenses "판매비(억원)" 100000000 metrics in
  let metrics := KeyMetrics.put_positive administrative_expenses "관리비(억원)" 100000000 metrics in
  let metrics := KeyMetrics.put_positive sg_and_a "판관비(억원)" 100000000 metrics in
  let metrics := KeyMetrics.put_ratio "매출액(조원)" "영업이익(억원)" "영업이익률(%)" KeyMetrics.percent_mixed metrics in
  let metrics := KeyMetrics.put_ratio "매출액(조원)" "매출총이익(조원)" "매출총이익률(%)" KeyMetrics.percent_same metrics in
  let metrics := KeyMetrics.put_ratio "매출액(조원)" "당기순이익(억원)" "순이익률(%)" KeyMetrics.percent_mixed metrics in
  let metrics := KeyMetrics.put_ratio "매출액(조원)" "매출원가(조원)" "매출원가율(%)" KeyMetrics.percent_same metrics in
  metrics.


(** *** The table *)

(** The quarter labels of the table of [collect_quarterly_data], by the
    report codes whose fetch gave a frame: one per quarterly filing, two for
    the annual filing. *)
Definition table_labels (year : Z) (fetched : string -> bool) : list string :=
  let y := pretty year in
  let one (code label : string) : list string :=
    if fetched code then [y ++ label] else [] in
  (one "11013" "Q1" ++ one "11012" "Q2" ++ one "11014" "Q3"
   ++ (if fetched "11011" then [(y ++ "Q4")%string; (y ++ " 연간")%string] else []))%list.

(** The columns a display row can have. *)
Definition display_columns : list string :=
  [ "회사"; "연도"; "분기"; "보고서구분";
    "매출액(조원)"; "매출원가(조원)"; "매출총이익(조원)";
    "영업이익(억원)"; "당기순이익(억원)"; "판관비(억원)";
    "영업이익률(%)"; "매출총이익률(%)"; "순이익률(%)"; "매출원가율(%)" ].

(** ** Sample inputs *)

Module Examples.
Import QuarterlyDataCollector.

Definition line (name amount : string) : account_line :=
  {| account_nm := Some name; thstrm_amount := Some amount; thstrm_add_amount := None |}.

(** Every company resolves to one corporation code. *)
Definition resolve (company_name : string) : option string := Some "00126380".

Definition q1_frame : DataFrame := [line "매출액" "20"; line "영업이익" "(5)"].

(** A record none of whose lines is one of the metrics. *)
Definition blank_frame : DataFrame := [line "자산총계" "1,000"].

(** A revenue line whose amount is no number, and an English line after it. *)
Definition mixed_frame : DataFrame :=
  [line "매출액" "n/a"; line "Total revenue" "1,500"; line "영업이익" "(50)"].

(** No Korean revenue line, an English one whose amount is no number, and
    a sales line after it. *)
Definition english_frame : DataFrame := [line "Revenue" "n/a"; line "Sales" "5"].

Definition fetch_nothing (corp_code year code : string) : DataFrame := [].

Definition fetch_q1_only (corp_code year code : string) : DataFrame :=
  if String.eqb code "11013" then q1_frame else [].

Definition fetch_q1_and_blank_annual (corp_code year code : string) : DataFrame :=
  if String.eqb code "11013" then q1_frame
  else if String.eqb code "11011" then blank_frame
  else [].

Definition fetch_blank_annual_only (corp_code year code : string) : DataFrame :=
  if String.eqb code "11011" then blank_frame else [].

(** Revenue 200, gross profit 50 and an operating loss of 50. *)
Definition margins : gmap string pyfloat :=
  <["매출액" := of_Z 200]> (<["매출총이익" := of_Z 50]> (<["영업이익" := of_Z (-50)]> ∅)).

Definition revenue (n : Z) : gmap string pyfloat := <["매출액" := of_Z n]> ∅.

Definition four_quarters : gmap string (gmap string pyfloat) :=
  <["Q1" := revenue 20]> (<["Q2" := revenue 30]> (<["Q3" := revenue 25]>
    (<["Q4" := revenue 100]> ∅))).

Definition annual_only : gmap string (gmap string pyfloat) :=
  <["Q4" := revenue 100]> ∅.


Definition sales_amounts : gmap string pyfloat :=
  <["매출액" := of_Z 2000]> (<["영업이익" := of_Z 500]> ∅).

(** A record whose only expense line is the selling and administrative
    expenses. *)
Definition sga_frame : DataFrame := [line "매출액" "2,000"; line "판매비와관리비" "300"].

(** A company list of two entries, the second one unlisted. *)
Definition companies : list DartAPICollector.company :=
  [ {| DartAPICollector.name := Some "SK이노베이션";
       DartAPICollector.code := Some "00631518";
       DartAPICollector.stock_code := Some "096770" |};
    {| DartAPICollector.name := Some "GS칼텍스";
       DartAPICollector.code := Some "00165413";
       DartAPICollector.stock_code := None |} ].

(** [str.isdigit] on ASCII texts. *)
Definition isdigit (s : string) : bool := negb (String.eqb s "") && all_digits s.

(** Two news rows: one that names a company, one on the weather. *)
Definition news_item (title summary : string) : SKNewsCollector.news_row :=
  <["제목" := title]> (<["요약" := summary]> ∅).

Definition news : list SKNewsCollector.news_row :=
  [ news_item "SK에너지 실적 발표" "3분기 영업이익"; news_item "오늘의 날씨" "맑음" ].

End Examples.

(** ** Proofs *)

(** Closes an equation between closed terms that hold rationals: both sides
    are evaluated, and two canonical fractions are equal once their
    numerators and denominators are. *)
Ltac float_refl :=
  vm_compute;
  repeat match goal with
         | |- Some _ = Some _ => f_equal
         | |- VFloat _ = VFloat _ => f_equal
         | |- Fin _ = Fin _ => f_equal
         end;
  first [reflexivity | apply Qc_is_canon; reflexivity].

(** ** Facts about floats *)

Lemma Qc_of_Z_0 : Qc_of_Z 0 = 0%Qc.
Proof. apply Qc_is_canon. reflexivity. Qed.

Lemma truthy_zero : truthy zero = false.
Proof. unfold truthy, zero, of_Z. by rewrite bool_decide_eq_true_2. Qed.

Lemma truthy_true_iff (x : pyfloat) : truthy x = true <-> x <> zero.
Proof.
  destruct x as [q| |]; unfold truthy, zero, of_Z; [|done..].
  rewrite negb_true_iff, bool_decide_eq_false. split; congruence.
Qed.

Lemma truthy_false_iff (x : pyfloat) : truthy x = false <-> x = zero.
Proof.
  destruct x as [q| |]; unfold truthy, zero, of_Z; [|done..].
  rewrite negb_false_iff, bool_decide_eq_true. split; congruence.
Qed.

Lemma or0_id (x : pyfloat) : or0 x = x.
Proof.
  unfold or0. destruct (truthy x) eqn:E; [done|].
  symmetry. by apply truthy_false_iff.
Qed.

Lemma fadd_zero_l (x : pyfloat) : fadd zero x = x.
Proof.
  destruct x as [q| |]; simpl; [|done..].
  by rewrite Qc_of_Z_0, Qcplus_0_l.
Qed.

Lemma fadd_zero_r (x : pyfloat) : fadd x zero = x.
Proof.
  destruct x as [q| |]; simpl; [|done..].
  by rewrite Qc_of_Z_0, Qcplus_0_r.
Qed.

Lemma fneg_zero : fneg zero = zero.
Proof. unfold zero, of_Z. simpl. f_equal. apply Qc_is_canon. reflexivity. Qed.

Lemma fsub_zero_r (x : pyfloat) : fsub x zero = x.
Proof. unfold fsub. rewrite fneg_zero. apply fadd_zero_r. Qed.

(** ** Facts about texts *)

Lemma remove_idem (c : ascii) (s : string) : remove c (remove c s) = remove c s.
Proof.
  induction s as [|d t IH]; simpl; [done|].
  destruct (Ascii.eqb c d) eqn:E; simpl; [done|]. by rewrite E, IH.
Qed.

Lemma remove_app (c : ascii) (s t : string) :
  remove c (s ++ t) = remove c s ++ remove c t.
Proof.
  induction s as [|d s IH]; simpl; [done|].
  destruct (Ascii.eqb c d); simpl; by rewrite IH.
Qed.

Lemma mem_app (c : ascii) (s t : string) : mem c (s ++ t) = mem c s || mem c t.
Proof.
  induction s as [|d s IH]; simpl; [done|]. by rewrite IH, orb_assoc.
Qed.

Lemma mem_remove (c d : ascii) (s : string) :
  mem c s = false -> mem c (remove d s) = false.
Proof.
  induction s as [|e s IH]; simpl; [done|].
  intros [H1 H2]%orb_false_iff.
  destruct (Ascii.eqb d e); simpl; [auto|]. rewrite H1. auto.
Qed.

Lemma rstrip_keep (p : ascii -> bool) (c : ascii) (s : string) :
  p c = false -> rstrip p (String c s) = String c (rstrip p s).
Proof. intros H. simpl. rewrite H. by destruct (rstrip p s). Qed.

Lemma append_nil_r (s : string) : s ++ "" = s.
Proof.
  induction s as [|c s IH]; [done|].
  change (String c s ++ "") with (String c (s ++ "")). by rewrite IH.
Qed.

Lemma rstrip_app_free (p : ascii -> bool) (s t : string) :
  free_of p s -> rstrip p (s ++ t) = s ++ rstrip p t.
Proof.
  induction s as [|c s IH]; [done|]. intros [Hc Hs].
  change (String c s ++ t) with (String c (s ++ t)).
  rewrite rstrip_keep by done. by rewrite IH.
Qed.

Lemma free_of_paren (s : string) :
  mem "("%char s = false -> mem ")"%char s = false -> free_of is_paren s.
Proof.
  induction s as [|c s IH]; [done|]. cbn [mem free_of].
  intros [H1 H2]%orb_false_iff [H3 H4]%orb_false_iff. split; [|auto].
  unfold is_paren. rewrite (Ascii.eqb_sym c), H1, (Ascii.eqb_sym c), H3. done.
Qed.

Lemma lead_char_plain (c : ascii) :
  lead_char c = true ->
  is_space c = false /\ is_paren c = false
  /\ Ascii.eqb c "-"%char = false /\ Ascii.eqb c "+"%char = false.
Proof.
  destruct c as [[] [] [] [] [] [] [] []]; vm_compute; intros H;
    first [discriminate H | done].
Qed.

(** ** Facts about amount texts *)

Lemma parse_amount_plain (v : string) (d : ascii) (t : string) :
  v = String d t -> lead_char d = true ->
  mem "("%char v = false -> mem ")"%char v = false ->
  remove ","%char v = v ->
  parse_amount v = float_unsigned (rstrip is_space v).
Proof.
  intros -> Hd Hl Hr Hv.
  destruct (lead_char_plain d Hd) as (Hsp & Hpa & Hmi & Hpl).
  unfold parse_amount. rewrite Hv, Hl. cbn [andb].
  unfold strip. rewrite rstrip_keep by done. cbn [lstrip]. rewrite Hsp.
  cbn [String.eqb]. rewrite Hmi. cbn [orb andb].
  unfold py_float, strip. rewrite rstrip_keep by done. cbn [lstrip].
  by rewrite Hsp, Hmi, Hpl.
Qed.

Lemma parse_amount_parenthesized (v : string) (d : ascii) (t : string) :
  v = String d t -> lead_char d = true ->
  mem "("%char v = false -> mem ")"%char v = false ->
  remove ","%char v = v ->
  parse_amount ("(" ++ v ++ ")") = fneg <$> float_unsigned (rstrip is_space v).
Proof.
  intros Ev Hd Hl Hr Hv.
  destruct (lead_char_plain d Hd) as (Hsp & Hpa & Hmi & Hpl).
  unfold parse_amount.
  assert (remove ","%char ("(" ++ v ++ ")") = "(" ++ v ++ ")") as ->.
  { rewrite !remove_app, Hv. done. }
  assert (mem "("%char ("(" ++ v ++ ")") = true) as -> by done.
  assert (mem ")"%char ("(" ++ v ++ ")") = true) as ->.
  { rewrite !mem_app. cbn. by rewrite !orb_true_r. }
  cbn [andb].
  assert (strip is_paren ("(" ++ v ++ ")") = v) as ->.
  { unfold strip. change ("(" ++ v ++ ")") with (String "("%char (v ++ ")")).
    assert (rstrip is_paren (v ++ ")") = v) as Hrs.
    { rewrite rstrip_app_free by (apply free_of_paren; assumption).
      apply append_nil_r. }
    cbn [rstrip]. rewrite Hrs. subst v. cbn [lstrip].
    assert (is_paren "("%char = true) as -> by done. by rewrite Hpa. }
  subst v. change ("-" ++ String d t) with (String "-"%char (String d t)).
  unfold strip. rewrite !rstrip_keep by done. cbn [lstrip].
  assert (is_space "-"%char = false) as -> by done.
  cbn [String.eqb]. assert (Ascii.eqb "-" "-" = true) as -> by done.
  cbn [orb andb].
  unfold py_float, strip. rewrite !rstrip_keep by done. cbn [lstrip].
  assert (is_space "-"%char = false) as -> by done.
  assert (Ascii.eqb "-" "-" = true) as -> by done.
  done.
Qed.

Lemma unsigned_figure_inv (s : string) :
  unsigned_figure s = true ->
  exists d t, remove ","%char s = String d t /\ lead_char d = true
    /\ mem "("%char (remove ","%char s) = false
    /\ mem ")"%char (remove ","%char s) = false.
Proof.
  unfold unsigned_figure.
  intros [[Hl%negb_true_iff Hr%negb_true_iff]%andb_true_iff H]%andb_true_iff.
  destruct (remove ","%char s) as [|d t] eqn:E; [done|].
  exists d, t. rewrite <- E. repeat split; auto using mem_remove.
Qed.

Lemma parse_amount_commas (raw : string) :
  parse_amount raw = parse_amount (remove ","%char raw).
Proof. unfold parse_amount. by rewrite remove_idem. Qed.

Lemma parse_amount_app_commas (s : string) :
  parse_amount ("(" ++ s ++ ")") = parse_amount ("(" ++ remove ","%char s ++ ")").
Proof.
  rewrite parse_amount_commas, (parse_amount_commas ("(" ++ remove _ _ ++ _)).
  by rewrite !remove_app, remove_idem.
Qed.

(** C4.  The numeric parsing of an amount text: the thousands separators
    do not count; an unsigned figure N in parentheses parses to the negative
    of what N parses to, so that (1,234) is -1234.0; the lone dash and the
    empty text parse to 0.0. *)
Theorem parse_amount_rules :
  (forall raw, parse_amount raw = parse_amount (remove ","%char raw))
  /\ (forall N x, unsigned_figure N = true -> parse_amount N = Some x ->
        parse_amount ("(" ++ N ++ ")") = Some (fneg x))
  /\ parse_amount "(1,234)" = Some (of_Z (-1234))
  /\ parse_amount "-" = Some zero
  /\ parse_amount "" = Some zero.
Proof.
  split; [exact parse_amount_commas|].
  split; [|repeat split; [float_refl | reflexivity..]].
  intros N x (d & t & E & Hd & Hl & Hr)%unsigned_figure_inv HN.
  rewrite parse_amount_app_commas.
  rewrite parse_amount_commas in HN.
  rewrite (parse_amount_plain _ d t) in HN by (try done; by rewrite remove_idem).
  rewrite (parse_amount_parenthesized _ d t) by (try done; by rewrite remove_idem).
  by rewrite HN.
Qed.

(** ** Facts about the extractor *)

Lemma metrics_NoDup : NoDup (fst <$> metrics).
Proof. apply (bool_decide_unpack _). by vm_compute. Qed.

Lemma extract_lookup (df : DataFrame) (c : column) (key : string) (keywords : list string) :
  (key, keywords) ∈ metrics ->
  _extract_raw_amounts df c !! key = Some (find_amount df c keywords).
Proof.
  intros Hin. unfold _extract_raw_amounts. apply elem_of_list_to_map_1.
  - rewrite <- list_fmap_compose.
    erewrite list_fmap_ext; [exact metrics_NoDup|]. by intros ? [??].
  - apply list_elem_of_fmap. by exists (key, keywords).
Qed.

Lemma extract_dom (df : DataFrame) (c : column) :
  dom (_extract_raw_amounts df c) = list_to_set metric_keys.
Proof.
  unfold _extract_raw_amounts, metric_keys. rewrite dom_list_to_map_L.
  reflexivity.
Qed.

Lemma metric_keys_metrics (key : string) :
  key ∈ metric_keys -> exists keywords, (key, keywords) ∈ metrics.
Proof.
  unfold metric_keys. intros ([k kws] & -> & Hin)%list_elem_of_fmap. by exists kws.
Qed.

Lemma find_amount_step (df : DataFrame) (c : column) (keyword : string) (rest : list string) :
  find_amount df c (keyword :: rest)
  = default (find_amount df c rest) (resolves df c keyword).
Proof.
  unfold resolves. cbn [find_amount].
  destruct (matching df keyword) as [|r rs]; [done|]. cbn.
  by destruct (parse_amount (get_text df c r)).
Qed.

Lemma find_amount_unresolved (df : DataFrame) (c : column) (keywords : list string) :
  (forall keyword, keyword ∈ keywords -> resolves df c keyword = None) ->
  find_amount df c keywords = zero.
Proof.
  induction keywords as [|k ks IH]; [done|]. intros H.
  rewrite find_amount_step, (H k) by apply list_elem_of_here.
  apply IH. intros k' Hk'. apply H. by apply list_elem_of_further.
Qed.

Lemma resolves_no_match (df : DataFrame) (c : column) (keyword : string) :
  matching df keyword = [] -> resolves df c keyword = None.
Proof. unfold resolves. by intros ->. Qed.

(** ** Facts about display rows *)

Lemma scaled_lookup_ne raw key field unit (row : gmap string value) f :
  field <> f -> scaled raw key field unit row !! f = row !! f.
Proof.
  intros Hne. unfold scaled. destruct (raw !! key) as [x|]; [|done].
  destruct (truthy x); [|done]. by rewrite lookup_insert_ne.
Qed.

Lemma scaled_lookup_eq raw key field unit (row : gmap string value) :
  row !! field = None ->
  scaled raw key field unit row !! field = scaled_value raw key unit.
Proof.
  intros Hnone. unfold scaled, scaled_value. destruct (raw !! key) as [x|]; [|done].
  cbn. destruct (truthy x); [|done]. by rewrite lookup_insert_eq.
Qed.

Lemma ratio_lookup_ne raw sales key field (row : gmap string value) f :
  field <> f -> ratio raw sales key field row !! f = row !! f.
Proof.
  intros Hne. unfold ratio. destruct (raw !! key) as [x|]; [|done].
  by rewrite lookup_insert_ne.
Qed.

Lemma ratio_lookup_eq raw sales key field (row : gmap string value) :
  row !! field = None ->
  ratio raw sales key field row !! field
  = x ← raw !! key; Some (VFloat (fmul (fdiv x sales) (of_Z 100))).
Proof.
  intros Hnone. unfold ratio. destruct (raw !! key) as [x|]; [|done].
  by rewrite lookup_insert_eq.
Qed.

Lemma scaled_all_zero raw key field unit (row : gmap string value) :
  all_zero raw -> scaled raw key field unit row = row.
Proof.
  intros Hz. unfold scaled. destruct (raw !! key) as [x|] eqn:E; [|done].
  by rewrite (Hz _ _ E), truthy_zero.
Qed.

Lemma identity_row_fresh company_name year label report_name (f : string) :
  f <> "회사" -> f <> "연도" -> f <> "분기" -> f <> "보고서구분" ->
  identity_row company_name year label report_name !! f = None.
Proof.
  intros H1 H2 H3 H4. unfold identity_row.
  destruct (text_truthy report_name); by rewrite ?lookup_insert_ne, lookup_empty.
Qed.

(** Rewrites a lookup through the assignments of [_build_display_row] that
    write other fields. *)
Ltac skip_fields :=
  rewrite ?ratio_lookup_ne by done; rewrite ?scaled_lookup_ne by done.

Lemma build_scaled_field company_name year label raw report_name
    (key field : string) (unit : Z) :
  (key, field, unit) ∈
    [ ("매출액", "매출액(조원)", 1000000000000%Z);
      ("매출원가", "매출원가(조원)", 1000000000000%Z);
      ("매출총이익", "매출총이익(조원)", 1000000000000%Z);
      ("영업이익", "영업이익(억원)", 100000000%Z);
      ("당기순이익", "당기순이익(억원)", 100000000%Z);
      ("판관비", "판관비(억원)", 100000000%Z) ] ->
  _build_display_row company_name year label raw report_name !! field
  = scaled_value raw key unit.
Proof.
  intros Hin. unfold _build_display_row. cbv zeta.
  fold (identity_row company_name year label report_name).
  repeat (apply elem_of_cons in Hin as [[= -> -> ->]|Hin];
    [destruct (truthy (default zero (raw !! "매출액"))); skip_fields;
     (rewrite scaled_lookup_eq; [done|]); skip_fields;
     by apply identity_row_fresh|]).
  by apply elem_of_nil in Hin.
Qed.

Lemma build_ratio_field company_name year label raw report_name (key field : string) :
  (key, field) ∈
    [ ("영업이익", "영업이익률(%)"); ("매출총이익", "매출총이익률(%)");
      ("당기순이익", "순이익률(%)"); ("매출원가", "매출원가율(%)") ] ->
  _build_display_row company_name year label raw report_name !! field
  = ratio_value raw key.
Proof.
  intros Hin. unfold _build_display_row, ratio_value. cbv zeta.
  fold (identity_row company_name year label report_name).
  repeat (apply elem_of_cons in Hin as [[= -> ->]|Hin];
    [destruct (raw !! "매출액") as [sales|]; cbn -[truthy ratio scaled lookup];
     [destruct (truthy sales)|rewrite truthy_zero]; skip_fields;
     try (rewrite ratio_lookup_eq; [done|]); skip_fields;
     by apply identity_row_fresh|]).
  by apply elem_of_nil in Hin.
Qed.

Lemma build_all_zero company_name year label raw report_name :
  all_zero raw ->
  _build_display_row company_name year label raw report_name
  = identity_row company_name year label report_name.
Proof.
  intros Hz. unfold _build_display_row. cbv zeta.
  fold (identity_row company_name year label report_name).
  rewrite !scaled_all_zero by done.
  destruct (raw !! "매출액") as [sales|] eqn:E; cbn -[truthy ratio scaled lookup].
  - by rewrite (Hz _ _ E), truthy_zero.
  - by rewrite truthy_zero.
Qed.

Lemma build_label company_name year label raw report_name :
  _build_display_row company_name year label raw report_name !! "분기"
  = Some (VStr label).
Proof.
  unfold _build_display_row. cbv zeta.
  destruct (truthy (default zero (raw !! "매출액"))); skip_fields;
    destruct (text_truthy report_name);
    rewrite ?lookup_insert_ne by done; by rewrite lookup_insert_eq.
Qed.

(** ** Facts about sums and differences of dictionaries *)

Lemma dict_truthy_false {V} (d : gmap string V) : dict_truthy d = false <-> d = ∅.
Proof.
  unfold dict_truthy. rewrite negb_false_iff, bool_decide_eq_true.
  split; [apply dom_empty_inv_L | intros ->; apply dom_empty_L].
Qed.

Lemma dict_truthy_true {V} (d : gmap string V) : dict_truthy d = true <-> d <> ∅.
Proof.
  rewrite <- dict_truthy_false. destruct (dict_truthy d); split; congruence.
Qed.

Lemma get0_empty (k : string) : get0 ∅ k = zero.
Proof. unfold get0. by rewrite lookup_empty. Qed.

Lemma lookup_set_to_map_key (g : string -> pyfloat) (keys : gset string) (k : string) :
  (set_to_map (fun k => (k, g k)) keys : gmap string pyfloat) !! k
  = if decide (k ∈ keys) then Some (g k) else None.
Proof.
  apply option_eq. intros x. rewrite lookup_set_to_map by (by intros ??).
  destruct (decide (k ∈ keys)) as [Hin|Hout]; split.
  - by intros (y & _ & [= -> <-]).
  - intros [= <-]. by exists k.
  - intros (y & Hy & [= -> <-]). done.
  - done.
Qed.

Lemma keywise_lookup op (a b : gmap string pyfloat) (k : string) :
  keywise op a b !! k
  = if decide (k ∈ dom a ∪ dom b) then Some (op (get0 a k) (get0 b k)) else None.
Proof.
  unfold keywise, get0. rewrite lookup_merge.
  destruct (a !! k) as [x|] eqn:Ea, (b !! k) as [y|] eqn:Eb; cbn;
    destruct (decide _) as [Hin|Hout]; try done;
    try (exfalso; apply Hout; rewrite elem_of_union, !elem_of_dom, Ea, Eb; eauto).
  exfalso. rewrite elem_of_union, !elem_of_dom, Ea, Eb in Hin.
  destruct Hin as [[? [=]]|[? [=]]].
Qed.

Lemma sub_dict_keywise (a b : gmap string pyfloat) : sub_dict a b = keywise fsub a b.
Proof.
  apply map_eq. intros k. unfold sub_dict.
  by rewrite lookup_set_to_map_key, keywise_lookup, !or0_id.
Qed.

Lemma live_sum (k : string) (dicts : list (gmap string pyfloat)) (acc : pyfloat) :
  foldl fadd acc ((fun d => or0 (get0 d k)) <$> List.filter dict_truthy dicts)
  = foldl fadd acc ((fun d => get0 d k) <$> dicts).
Proof.
  revert acc. induction dicts as [|d ds IH]; intros acc; [done|].
  cbn [List.filter]. destruct (dict_truthy d) eqn:E; cbn [fmap list_fmap foldl].
  - by rewrite or0_id, IH.
  - apply dict_truthy_false in E as ->. by rewrite get0_empty, fadd_zero_r, IH.
Qed.

Lemma live_keys (k : string) (dicts : list (gmap string pyfloat)) :
  k ∈ (⋃ (dom <$> List.filter dict_truthy dicts) : gset string)
  <-> exists d, d ∈ dicts /\ k ∈ dom d.
Proof.
  rewrite elem_of_union_list. split.
  - intros (X & (d & -> & Hd)%list_elem_of_fmap & Hk). exists d. split; [|done].
    apply list_elem_of_In, filter_In in Hd as [Hd _]. by apply list_elem_of_In.
  - intros (d & Hd & Hk). exists (dom d). split; [|done].
    apply list_elem_of_fmap. exists d. split; [done|].
    apply list_elem_of_In, filter_In. split; [by apply list_elem_of_In|].
    apply dict_truthy_true. intros ->. by rewrite dom_empty_L in Hk.
Qed.

Lemma add_dicts_sum3 (q1 q2 q3 : gmap string pyfloat) :
  add_dicts [q1; q2; q3] = sum3 q1 q2 q3.
Proof.
  apply map_eq. intros k. unfold add_dicts, sum3, py_sum.
  rewrite lookup_set_to_map_key, live_sum, !keywise_lookup.
  cbn [fmap list_fmap foldl].
  destruct (decide (k ∈ ⋃ _)) as [Hin|Hout]; [rewrite fadd_zero_l|].
  - apply live_keys in Hin as (d & Hd & Hk).
    rewrite decide_True.
    2:{ rewrite elem_of_union, !elem_of_dom, keywise_lookup.
        rewrite !elem_of_cons, elem_of_nil in Hd.
        destruct Hd as [->|[->|[->|[]]]].
        - left. rewrite decide_True by set_solver. eauto.
        - left. rewrite decide_True by set_solver. eauto.
        - right. by apply elem_of_dom. }
    f_equal. f_equal. unfold get0 at 3. rewrite keywise_lookup.
    destruct (decide (k ∈ dom q1 ∪ dom q2)) as [H12|H12]; [done|].
    apply not_elem_of_union in H12 as [H1 H2].
    unfold get0. rewrite (not_elem_of_dom_1 _ _ H1), (not_elem_of_dom_1 _ _ H2).
    apply (fadd_zero_l zero).
  - rewrite decide_False; [done|]. intros Hk. apply Hout, live_keys.
    rewrite elem_of_union, !elem_of_dom, keywise_lookup in Hk.
    destruct Hk as [Hk|Hk].
    + destruct (decide (k ∈ dom q1 ∪ dom q2)) as [[H|H]%elem_of_union|];
        [exists q1|exists q2|by destruct Hk]; split; [set_solver|done|set_solver|done].
    + exists q3. split; [set_solver|by apply elem_of_dom].
Qed.

Lemma add_dicts_empty : add_dicts [∅; ∅; ∅] = ∅.
Proof.
  apply map_eq. intros k. unfold add_dicts.
  rewrite lookup_set_to_map_key, lookup_empty, decide_False; [done|].
  rewrite live_keys. intros (d & Hd & Hk).
  rewrite !elem_of_cons, elem_of_nil in Hd.
  destruct Hd as [->|[->|[->|[]]]]; by rewrite dom_empty_L in Hk.
Qed.

Lemma sub_dict_empty_r (a : gmap string pyfloat) : sub_dict a ∅ = a.
Proof.
  apply map_eq. intros k. rewrite sub_dict_keywise, keywise_lookup.
  rewrite dom_empty_L, union_empty_r_L, get0_empty. unfold get0.
  destruct (a !! k) as [x|] eqn:E.
  - rewrite decide_True by (apply elem_of_dom; eauto). cbn. by rewrite fsub_zero_r.
  - rewrite decide_False; [done|]. by apply not_elem_of_dom.
Qed.

Lemma zero_amounts_dom : dom zero_amounts = list_to_set metric_keys.
Proof. unfold zero_amounts. apply dom_gset_to_gmap. Qed.

Lemma get0_zero_amounts (k : string) : get0 zero_amounts k = zero.
Proof.
  unfold get0, zero_amounts. rewrite lookup_gset_to_gmap.
  by destruct (guard _).
Qed.

(** The value and the own keys of an absent quarter do not matter to the
    difference once the annual dictionary carries the canonical keys. *)
Lemma get0_quarter_present (curr : gmap string (gmap string pyfloat)) (q k : string) :
  get0 (present curr q) k = get0 (quarter curr q) k.
Proof.
  unfold present, quarter. destruct (curr !! q); cbn; [done|].
  by rewrite get0_zero_amounts, get0_empty.
Qed.

Lemma dom_quarter_present (curr : gmap string (gmap string pyfloat)) (q : string) :
  dom (quarter curr q) ⊆ dom (present curr q)
  /\ dom (present curr q) ⊆ dom (quarter curr q) ∪ list_to_set metric_keys.
Proof.
  unfold present, quarter. destruct (curr !! q); cbn.
  - split; [done|apply union_subseteq_l].
  - rewrite zero_amounts_dom, dom_empty_L.
    split; [apply empty_subseteq|apply union_subseteq_r].
Qed.

(** ** Facts about the collection *)

Section CollectFacts.

Variable get_corp_code_enhanced : string -> option string.
Variable get_financial_statement : string -> string -> string -> DataFrame.

Abbreviation collect := (collect_quarterly_data get_corp_code_enhanced get_financial_statement).
Abbreviation raw_of := (collect_raw get_financial_statement).

Lemma collect_raw_lookup (corp_code : string) (year : Z) (q code : string) :
  (q, code) ∈ report_codes ->
  (raw_of corp_code year).1 !! q
  = slice_curr (get_financial_statement corp_code (pretty year) code)
  /\ (raw_of corp_code year).2 !! q
     = slice_cum (get_financial_statement corp_code (pretty year) code).
Proof.
  intros Hin. unfold collect_raw, report_codes in *. cbn [foldl].
  unfold collect_step, slice_curr, slice_cum.
  rewrite !elem_of_cons, elem_of_nil in Hin.
  destruct Hin as [[= -> ->]|[[= -> ->]|[[= -> ->]|[[= -> ->]|[]]]]];
    destruct (empty (get_financial_statement corp_code (pretty year) "11013"));
    destruct (empty (get_financial_statement corp_code (pretty year) "11012"));
    destruct (empty (get_financial_statement corp_code (pretty year) "11014"));
    destruct (empty (get_financial_statement corp_code (pretty year) "11011"));
    cbn [fst snd]; rewrite ?lookup_insert_ne by done;
    by rewrite ?lookup_insert_eq, ?lookup_empty.
Qed.

Lemma collect_raw_nothing (corp_code : string) (year : Z) :
  (forall q code, (q, code) ∈ report_codes ->
     get_financial_statement corp_code (pretty year) code = []) ->
  raw_of corp_code year = (∅, ∅).
Proof.
  intros H. unfold collect_raw, report_codes in *. cbn [foldl]. unfold collect_step.
  rewrite (H "Q1" "11013"), (H "Q2" "11012"), (H "Q3" "11014"), (H "Q4" "11011")
    by (rewrite !elem_of_cons; auto 10).
  done.
Qed.

Lemma collect_unfold (company_name : string) (year : Z) :
  collect company_name year
  = if text_truthy (get_corp_code_enhanced company_name) then
      let raw := raw_of (default "" (get_corp_code_enhanced company_name)) year in
      if dict_truthy raw.1 then build_rows company_name year raw.1 raw.2 else []
    else [].
Proof.
  unfold collect_quarterly_data.
  destruct (text_truthy _); [|done]. by destruct (collect_raw _ _ _).
Qed.

End CollectFacts.

Lemma extract_truthy (df : DataFrame) (c : column) :
  dict_truthy (_extract_raw_amounts df c) = true.
Proof.
  apply dict_truthy_true. intros H.
  assert (_extract_raw_amounts df c !! "매출액" = None) as E by by rewrite H.
  rewrite (extract_lookup df c "매출액" ["매출액"; "revenue"; "sales"]) in E; [done|].
  apply list_elem_of_here.
Qed.

Lemma lookup_truthy {V} (m : gmap string V) (k : string) (v : V) :
  m !! k = Some v -> dict_truthy m = true.
Proof. intros H. apply dict_truthy_true. intros ->. by rewrite lookup_empty in H. Qed.

Lemma derived_q4_truthy (curr : gmap string (gmap string pyfloat)) annual :
  curr !! "Q4" = Some annual -> dict_truthy annual = true ->
  dict_truthy (derived_q4 curr) = true.
Proof.
  intros E Ha. unfold derived_q4. rewrite E.
  apply dict_truthy_true in Ha. apply dict_truthy_true. intros H. apply Ha.
  apply map_eq. intros k. rewrite lookup_empty.
  assert (sub_dict annual (add_dicts [quarter curr "Q1"; quarter curr "Q2";
            quarter curr "Q3"]) !! k = None) as Hk by by rewrite H.
  rewrite sub_dict_keywise, keywise_lookup in Hk.
  destruct (decide _) as [|Hout]; [done|].
  apply not_elem_of_union in Hout as [Hout _]. by apply not_elem_of_dom.
Qed.

Lemma label_inj (y a b : string) : y ++ a = y ++ b -> a = b.
Proof. apply String.app_inj. Qed.

Lemma build_rows_direct company_name year curr cum (q code report : string) :
  (q, code, report) ∈ direct_slices ->
  dict_truthy (quarter curr q) = true ->
  _build_display_row company_name year (pretty year ++ q) (quarter curr q) (Some report)
  ∈ build_rows company_name year curr cum.
Proof.
  intros Hin Ht. unfold build_rows, direct_slices in *. cbv zeta.
  rewrite !elem_of_cons, elem_of_nil in Hin.
  destruct Hin as [[= -> -> ->]|[[= -> -> ->]|[[= -> -> ->]|[]]]]; rewrite Ht;
    rewrite !elem_of_app, !list_elem_of_singleton; auto.
Qed.

Lemma build_rows_q4 company_name year curr cum :
  dict_truthy (derived_q4 curr) = true ->
  _build_display_row company_name year (pretty year ++ "Q4") (derived_q4 curr)
    (Some "4분기(당기)")
  ∈ build_rows company_name year curr cum.
Proof.
  intros Ht. unfold build_rows. cbv zeta. rewrite Ht.
  rewrite !elem_of_app, !list_elem_of_singleton; auto.
Qed.

Lemma build_rows_no_q4 company_name year curr cum row :
  dict_truthy (derived_q4 curr) = false ->
  row ∈ build_rows company_name year curr cum ->
  row !! "분기" <> Some (VStr (pretty year ++ "Q4")).
Proof.
  intros Ht. unfold build_rows. cbv zeta. rewrite Ht.
  rewrite !elem_of_app.
  intros [H|[H|[H|[H|H]]]]; revert H;
    repeat match goal with
           | |- context [if ?b then _ else _] => destruct b
           | |- context [match ?o with Some _ => _ | None => _ end] => destruct o
           end;
    rewrite ?elem_of_nil, ?list_elem_of_singleton; try done;
    intros ->; rewrite build_label; intros [= E%label_inj]; discriminate E.
Qed.

(** ** The claims about the reconciliation and the collection *)

Section Claims.

Variable get_corp_code_enhanced : string -> option string.
Variable get_financial_statement : string -> string -> string -> DataFrame.

Abbreviation collect := (collect_quarterly_data get_corp_code_enhanced get_financial_statement).
Abbreviation raw_of := (collect_raw get_financial_statement).
Abbreviation corp_of company_name := (default "" (get_corp_code_enhanced company_name)).

Lemma get0_keywise_fadd (a b : gmap string pyfloat) (k : string) :
  get0 (keywise fadd a b) k = fadd (get0 a k) (get0 b k).
Proof.
  unfold get0 at 1. rewrite keywise_lookup.
  destruct (decide _) as [|Hout]; [done|].
  apply not_elem_of_union in Hout as [Ha Hb].
  unfold get0. rewrite (not_elem_of_dom_1 _ _ Ha), (not_elem_of_dom_1 _ _ Hb).
  symmetry. apply (fadd_zero_l zero).
Qed.

Lemma keywise_dom op (a b : gmap string pyfloat) : dom (keywise op a b) = dom a ∪ dom b.
Proof.
  apply set_eq. intros k. rewrite elem_of_dom, keywise_lookup.
  destruct (decide _); [by split; eauto|]. split; [by intros [? [=]]|done].
Qed.

Lemma derived_q4_absent (curr : gmap string (gmap string pyfloat)) :
  curr !! "Q4" = None -> derived_q4 curr = ∅.
Proof. unfold derived_q4. by intros ->. Qed.

(** C1.  When the annual entry is present, the derived fourth quarter is the
    annual dictionary less the key-wise sum of the three quarters, over the
    union of the keys and with an absent quarter counting as zero under
    every key; reading an absent quarter as the all-zero dictionary of the
    canonical keys gives the same result for an annual dictionary that
    carries them; with the three quarters absent the derived quarter is the
    annual dictionary. *)
Theorem derived_q4_annual_less_quarters
    (curr : gmap string (gmap string pyfloat)) (annual : gmap string pyfloat) :
  curr !! "Q4" = Some annual ->
  derived_q4 curr
  = keywise fsub annual (sum3 (quarter curr "Q1") (quarter curr "Q2") (quarter curr "Q3"))
  /\ (dom annual = list_to_set metric_keys ->
      derived_q4 curr
      = keywise fsub annual (sum3 (present curr "Q1") (present curr "Q2") (present curr "Q3")))
  /\ (curr !! "Q1" = None -> curr !! "Q2" = None -> curr !! "Q3" = None ->
      derived_q4 curr = annual).
Proof.
  intros E.
  assert (derived_q4 curr = keywise fsub annual
            (sum3 (quarter curr "Q1") (quarter curr "Q2") (quarter curr "Q3"))) as Hq.
  { unfold derived_q4. by rewrite E, add_dicts_sum3, sub_dict_keywise. }
  split; [exact Hq|]. split.
  - intros Hdom. rewrite Hq. apply map_eq. intros k. rewrite !keywise_lookup.
    unfold sum3. rewrite !get0_keywise_fadd, !get0_quarter_present, !keywise_dom.
    destruct (dom_quarter_present curr "Q1") as [A1 B1].
    destruct (dom_quarter_present curr "Q2") as [A2 B2].
    destruct (dom_quarter_present curr "Q3") as [A3 B3].
    rewrite <- Hdom in B1, B2, B3.
    destruct (decide _) as [Hl|Hl], (decide _) as [Hr|Hr]; try done; exfalso.
    + apply Hr. rewrite !elem_of_union in Hl |- *.
      destruct Hl as [?|[[?|?]|?]]; auto.
    + apply Hl. rewrite !elem_of_union in Hr |- *.
      destruct Hr as [?|[[H|H]|H]]; auto;
        [apply B1 in H|apply B2 in H|apply B3 in H];
        apply elem_of_union in H as [?|?]; auto.
  - intros E1 E2 E3. unfold derived_q4, quarter. rewrite E, E1, E2, E3. cbn [default].
    change (from_option id ∅ None) with (∅ : gmap string pyfloat).
    by rewrite add_dicts_empty, sub_dict_empty_r.
Qed.

(** C2.  Without an annual filing there is no derived fourth quarter: the
    reconciliation yields the empty dictionary for it, whatever quarters are
    there, and no row of the table carries the fourth quarter's label. *)
Theorem no_annual_no_q4 (company_name : string) (year : Z) :
  get_financial_statement (corp_of company_name) (pretty year) "11011" = [] ->
  (forall curr : gmap string (gmap string pyfloat),
     curr !! "Q4" = None -> derived_q4 curr = ∅)
  /\ (raw_of (corp_of company_name) year).1 !! "Q4" = None
  /\ forall row, row ∈ collect company_name year ->
       row !! "분기" <> Some (VStr (pretty year ++ "Q4")).
Proof.
  intros Hnone. split; [exact derived_q4_absent|].
  destruct (collect_raw_lookup get_financial_statement (corp_of company_name) year
              "Q4" "11011") as [Hcurr _].
  { unfold report_codes. rewrite !elem_of_cons. auto 10. }
  rewrite Hnone in Hcurr. cbn in Hcurr. split; [exact Hcurr|].
  intros row. rewrite collect_unfold. cbv zeta.
  destruct (text_truthy _); [|by rewrite elem_of_nil].
  destruct (dict_truthy _); [|by rewrite elem_of_nil].
  apply build_rows_no_q4. rewrite derived_q4_absent by done.
  by apply dict_truthy_false.
Qed.

Lemma direct_quarters_rows (company_name : string) (year : Z) (q code report : string) :
  text_truthy (get_corp_code_enhanced company_name) = true ->
  (q, code, report) ∈ direct_slices ->
  empty (get_financial_statement (corp_of company_name) (pretty year) code) = false ->
  let df := get_financial_statement (corp_of company_name) (pretty year) code in
  let amounts := _extract_raw_amounts df thstrm_amount in
  quarter (raw_of (corp_of company_name) year).1 q = amounts
  /\ _build_display_row company_name year (pretty year ++ q) amounts (Some report)
     ∈ collect company_name year.
Proof.
  intros Hcorp Hin Hdf df amounts.
  assert ((q, code) ∈ report_codes) as Hrc.
  { unfold direct_slices, report_codes in *. rewrite !elem_of_cons, elem_of_nil in Hin.
    rewrite !elem_of_cons. destruct Hin as [[= -> -> ->]|[[= -> -> ->]|[[= -> -> ->]|[]]]]; auto. }
  destruct (collect_raw_lookup get_financial_statement (corp_of company_name) year
              q code Hrc) as [Hcurr _].
  unfold slice_curr in Hcurr. rewrite Hdf in Hcurr.
  assert (quarter (raw_of (corp_of company_name) year).1 q = amounts) as Hq.
  { unfold quarter. by rewrite Hcurr. }
  split; [exact Hq|].
  rewrite collect_unfold, Hcorp. cbv zeta. rewrite (lookup_truthy _ _ _ Hcurr).
  rewrite <- Hq. eapply build_rows_direct; [exact Hin|].
  rewrite Hq. apply extract_truthy.
Qed.

(** C3.  A fetched first, second or third quarter enters the table as it was
    extracted: the dictionary kept for it is the extractor's current-period
    dictionary, its row is built from that dictionary, and the table holds no
    other row under its label. *)
Theorem direct_quarters_unchanged (company_name : string) (year : Z)
    (q code report : string) :
  text_truthy (get_corp_code_enhanced company_name) = true ->
  (q, code, report) ∈ direct_slices ->
  empty (get_financial_statement (corp_of company_name) (pretty year) code) = false ->
  let df := get_financial_statement (corp_of company_name) (pretty year) code in
  let amounts := _extract_raw_amounts df thstrm_amount in
  let row := _build_display_row company_name year (pretty year ++ q) amounts (Some report) in
  quarter (raw_of (corp_of company_name) year).1 q = amounts
  /\ row ∈ collect company_name year
  /\ forall row', row' ∈ collect company_name year ->
       row' !! "분기" = Some (VStr (pretty year ++ q)) -> row' = row.
Proof.
  intros Hcorp Hin Hdf df amounts row.
  destruct (direct_quarters_rows company_name year q code report Hcorp Hin Hdf)
    as [Hq Hrow].
  split; [exact Hq|]. split; [exact Hrow|].
  intros row'. rewrite collect_unfold, Hcorp. cbv zeta.
  destruct (dict_truthy _); [|by rewrite elem_of_nil].
  unfold build_rows. cbv zeta. rewrite !elem_of_app.
  unfold direct_slices in Hin. rewrite !elem_of_cons, elem_of_nil in Hin.
  intros Hrow' Hlabel.
  destruct Hin as [[= -> -> ->]|[[= -> -> ->]|[[= -> -> ->]|[]]]];
    rewrite Hq in Hrow'; fold amounts in Hrow';
    destruct Hrow' as [H|[H|[H|[H|H]]]]; revert H;
    repeat match goal with
           | |- context [if ?b then _ else _] => destruct b
           | |- context [match ?o with Some _ => _ | None => _ end] => destruct o
           end;
    rewrite ?elem_of_nil, ?list_elem_of_singleton; try done;
    intros ->; try reflexivity;
    rewrite build_label in Hlabel; injection Hlabel as E%label_inj; discriminate E.
Qed.

(** C8.  When the company cannot be resolved, or none of the four report
    codes yields a record, the collection returns the empty table; it is a
    value of the function like any other table. *)
Theorem nothing_fetched_empty_table (company_name : string) (year : Z) :
  text_truthy (get_corp_code_enhanced company_name) = false
  \/ (forall q code, (q, code) ∈ report_codes ->
        get_financial_statement (corp_of company_name) (pretty year) code = []) ->
  collect company_name year = [].
Proof.
  intros H. rewrite collect_unfold. cbv zeta.
  destruct H as [->|H]; [done|].
  destruct (text_truthy _); [|done].
  by rewrite (collect_raw_nothing _ _ _ H).
Qed.

(** C10, as amended.  A first, second or third quarter whose fetch returned
    a record with every extracted amount zero still has its row, made of the
    identity fields alone.  The fourth quarter's row is built from the
    derived difference: it is there whenever the annual fetch returned a
    record, and it is made of the identity fields alone when every derived
    amount is zero. *)
Theorem zero_amount_slices_keep_their_row (company_name : string) (year : Z) :
  text_truthy (get_corp_code_enhanced company_name) = true ->
  (forall q code report, (q, code, report) ∈ direct_slices ->
     zero_slice_row get_corp_code_enhanced get_financial_statement
       company_name year q code report)
  /\ (empty (get_financial_statement (corp_of company_name) (pretty year) "11011") = false ->
      let q4 := derived_q4 (raw_of (corp_of company_name) year).1 in
      _build_display_row company_name year (pretty year ++ "Q4") q4 (Some "4분기(당기)")
        ∈ collect company_name year
      /\ (all_zero q4 ->
          identity_row company_name year (pretty year ++ "Q4") (Some "4분기(당기)")
            ∈ collect company_name year)).
Proof.
  intros Hcorp. split.
  - intros q code report Hin. unfold zero_slice_row. intros _ Hdf Hz.
    destruct (direct_quarters_rows company_name year q code report Hcorp Hin Hdf)
      as [_ Hrow].
    by rewrite build_all_zero in Hrow.
  - intros Hdf q4.
    destruct (collect_raw_lookup get_financial_statement (corp_of company_name) year
                "Q4" "11011") as [Hcurr _].
    { unfold report_codes. rewrite !elem_of_cons. auto 10. }
    unfold slice_curr in Hcurr. rewrite Hdf in Hcurr.
    assert (_build_display_row company_name year (pretty year ++ "Q4") q4
              (Some "4분기(당기)") ∈ collect company_name year) as Hrow.
    { rewrite collect_unfold, Hcorp. cbv zeta. rewrite (lookup_truthy _ _ _ Hcurr).
      apply build_rows_q4. eapply derived_q4_truthy; [exact Hcurr|].
      apply extract_truthy. }
    split; [exact Hrow|]. intros Hz. by rewrite build_all_zero in Hrow.
Qed.

End Claims.

(** ** The claims about the extractor and the display rows *)

Lemma scaled_value_rule raw (row : gmap string value) key field unit :
  row !! field = scaled_value raw key unit -> scaled_rule raw row key field unit.
Proof.
  intros H. unfold scaled_rule, nonzero_at. rewrite H. unfold scaled_value.
  destruct (raw !! key) as [x|]; cbn.
  - destruct (truthy x) eqn:E; split.
    + split; [|done]. intros _. exists x. split; [done|]. by apply truthy_true_iff.
    + by intros ? [= <-] _.
    + apply truthy_false_iff in E as ->.
      split; [by intros [? [=]]|]. by intros (? & [= <-] & ?).
    + intros ? [= <-] Hx. by apply truthy_true_iff in Hx; rewrite Hx in E.
  - split; [|done]. split; [by intros [? [=]]|by intros (? & [=] & _)].
Qed.

Lemma ratio_value_rule raw (row : gmap string value) key field :
  row !! field = ratio_value raw key -> ratio_rule raw row key field.
Proof.
  intros H. unfold ratio_rule, nonzero_at. rewrite H. unfold ratio_value.
  destruct (raw !! "매출액") as [sales|]; cbn.
  - destruct (truthy sales) eqn:E.
    + apply truthy_true_iff in E. split.
      * destruct (raw !! key) as [x|]; cbn; split.
        -- intros _. split; [by exists sales|done].
        -- done.
        -- by intros [? [=]].
        -- by intros [_ [? [=]]].
      * by intros ? x [= <-] _ ->.
    + apply truthy_false_iff in E as ->. split.
      * split; [by intros [? [=]]|]. by intros [(? & [= <-] & ?) _].
      * by intros ? x [= <-] ?.
  - split; [|done]. split; [by intros [? [=]]|by intros [(? & [=] & _) _]].
Qed.

Lemma ratio_value_no_revenue raw key :
  ~ nonzero_at raw "매출액" -> ratio_value raw key = None.
Proof.
  intros Hz. unfold ratio_value. destruct (raw !! "매출액") as [sales|] eqn:E; [|done].
  cbn. destruct (truthy sales) eqn:T; [|done].
  exfalso. apply Hz. exists sales. split; [done|]. by apply truthy_true_iff.
Qed.

Lemma resolves_None (df : DataFrame) (c : column) (keyword : string) :
  resolves df c keyword = None
  <-> matching df keyword = []
      \/ exists r rs, matching df keyword = r :: rs
                      /\ parse_amount (get_text df c r) = None.
Proof.
  unfold resolves. destruct (matching df keyword) as [|r rs]; cbn [head mbind option_bind].
  - split; [by left|done].
  - split.
    + intros H. right. by exists r, rs.
    + by intros [[=]|(r' & rs' & [= <- <-] & H)].
Qed.

Lemma find_amount_first_resolved (df : DataFrame) (c : column)
    (before : list string) (keyword : string) (after : list string) (x : pyfloat) :
  (forall earlier, earlier ∈ before -> resolves df c earlier = None) ->
  resolves df c keyword = Some x ->
  find_amount df c (before ++ keyword :: after)%list = x.
Proof.
  intros Hbefore Hx. induction before as [|k before IH].
  - cbn [app]. by rewrite find_amount_step, Hx.
  - cbn [app]. rewrite find_amount_step, (Hbefore k) by apply list_elem_of_here.
    cbn [default]. apply IH. intros earlier Hin. apply Hbefore.
    by apply list_elem_of_further.
Qed.

(** C5.  The scan of a key's synonyms passes over a synonym that matches no
    line, and over one whose first matching line holds an amount that does
    not parse, and goes on with the next synonym; a match whose amount
    parses gives the value.  So the key's value is the amount of the first
    synonym that yields one, whatever synonyms come before or after it; a
    key none of whose synonyms matches a line is zero; and each key of the
    result holds the outcome of its own scan, whatever happened under the
    other keys. *)
Theorem parse_failure_skips_match (df : DataFrame) (c : column) :
  (forall keyword rest r rs,
     matching df keyword = r :: rs -> parse_amount (get_text df c r) = None ->
     find_amount df c (keyword :: rest) = find_amount df c rest)
  /\ (forall keyword rest,
        matching df keyword = [] ->
        find_amount df c (keyword :: rest) = find_amount df c rest)
  /\ (forall keyword rest r rs x,
        matching df keyword = r :: rs -> parse_amount (get_text df c r) = Some x ->
        find_amount df c (keyword :: rest) = x)
  /\ (forall before keyword after r rs x,
        (forall earlier, earlier ∈ before ->
           matching df earlier = []
           \/ exists r' rs', matching df earlier = r' :: rs'
                             /\ parse_amount (get_text df c r') = None) ->
        matching df keyword = r :: rs -> parse_amount (get_text df c r) = Some x ->
        find_amount df c (before ++ keyword :: after)%list = x)
  /\ (forall keywords,
        (forall keyword, keyword ∈ keywords ->
           matching df keyword = []
           \/ exists r rs, matching df keyword = r :: rs
                           /\ parse_amount (get_text df c r) = None) ->
        find_amount df c keywords = zero)
  /\ (forall keywords,
        (forall keyword, keyword ∈ keywords -> matching df keyword = []) ->
        find_amount df c keywords = zero)
  /\ (forall key keywords, (key, keywords) ∈ metrics ->
        _extract_raw_amounts df c !! key = Some (find_amount df c keywords)).
Proof.
  repeat split.
  - intros keyword rest r rs Hm Hp. cbn [find_amount]. by rewrite Hm, Hp.
  - intros keyword rest Hm. cbn [find_amount]. by rewrite Hm.
  - intros keyword rest r rs x Hm Hp. cbn [find_amount]. by rewrite Hm, Hp.
  - intros before keyword after r rs x Hbefore Hm Hp.
    apply find_amount_first_resolved.
    + intros earlier Hin. by apply resolves_None, Hbefore.
    + unfold resolves. by rewrite Hm.
  - intros keywords H. apply find_amount_unresolved.
    intros keyword Hin. by apply resolves_None, H.
  - intros keywords H. apply find_amount_unresolved.
    intros keyword Hin. by apply resolves_no_match, H.
  - apply extract_lookup.
Qed.

(** C9.  The extractor's dictionary has the eight canonical keys and no
    other, each bound to a float, and a key none of whose synonyms yields an
    amount is bound to zero. *)
Theorem extractor_total (df : DataFrame) (c : column) :
  metric_keys
  = ["매출액"; "매출원가"; "매출총이익"; "영업이익"; "당기순이익"; "판관비"; "판매비"; "관리비"]
  /\ dom (_extract_raw_amounts df c) = list_to_set metric_keys
  /\ (forall key, key ∈ metric_keys -> exists x, _extract_raw_amounts df c !! key = Some x)
  /\ (forall key keywords, (key, keywords) ∈ metrics ->
        (forall keyword, keyword ∈ keywords -> resolves df c keyword = None) ->
        _extract_raw_amounts df c !! key = Some zero).
Proof.
  split; [reflexivity|]. split; [apply extract_dom|]. split.
  - intros key (keywords & Hin)%metric_keys_metrics.
    exists (find_amount df c keywords). by apply extract_lookup.
  - intros key keywords Hin H.
    by rewrite (extract_lookup _ _ _ _ Hin), find_amount_unresolved.
Qed.

(** C6.  Each of the four ratio fields is in the row exactly when the
    revenue is not zero and the numerator key is in the dictionary, and is
    then numerator over revenue times 100; with a zero or absent revenue none
    of them is there, a gross profit that is not zero notwithstanding. *)
Theorem ratio_fields (company_name : string) (year : Z) (label : string)
    (raw : gmap string pyfloat) (report_name : option string) :
  let row := _build_display_row company_name year label raw report_name in
  ratio_rule raw row "영업이익" "영업이익률(%)"
  /\ ratio_rule raw row "매출총이익" "매출총이익률(%)"
  /\ ratio_rule raw row "당기순이익" "순이익률(%)"
  /\ ratio_rule raw row "매출원가" "매출원가율(%)"
  /\ (~ nonzero_at raw "매출액" ->
      row !! "영업이익률(%)" = None /\ row !! "매출총이익률(%)" = None
      /\ row !! "순이익률(%)" = None /\ row !! "매출원가율(%)" = None)
  /\ forall gross_profit,
       _build_display_row company_name year label
         (<["매출액" := zero]> (<["매출총이익" := gross_profit]> ∅)) report_name
       !! "매출총이익률(%)" = None.
Proof.
  intros row.
  do 4 (split; [apply ratio_value_rule, build_ratio_field; set_solver|]).
  split.
  { intros Hz. subst row.
    rewrite (build_ratio_field _ _ _ _ _ "영업이익" "영업이익률(%)") by set_solver.
    rewrite (build_ratio_field _ _ _ _ _ "매출총이익" "매출총이익률(%)") by set_solver.
    rewrite (build_ratio_field _ _ _ _ _ "당기순이익" "순이익률(%)") by set_solver.
    rewrite (build_ratio_field _ _ _ _ _ "매출원가" "매출원가율(%)") by set_solver.
    by rewrite !ratio_value_no_revenue. }
  intros gross_profit.
  rewrite (build_ratio_field _ _ _ _ _ "매출총이익") by set_solver.
  unfold ratio_value. rewrite lookup_insert_eq. cbn [mbind option_bind].
  by rewrite truthy_zero.
Qed.

(** C7.  Each of the six scaled fields is in the row exactly when the source
    amount is not zero, revenue, cost of sales and gross profit over 10^12,
    operating profit, net income and SG&A over 10^8; a negative amount keeps
    its sign, an operating profit of -50 giving -50/10^8. *)
Theorem scaled_fields (company_name : string) (year : Z) (label : string)
    (raw : gmap string pyfloat) (report_name : option string) :
  let row := _build_display_row company_name year label raw report_name in
  scaled_rule raw row "매출액" "매출액(조원)" (10 ^ 12)
  /\ scaled_rule raw row "매출원가" "매출원가(조원)" (10 ^ 12)
  /\ scaled_rule raw row "매출총이익" "매출총이익(조원)" (10 ^ 12)
  /\ scaled_rule raw row "영업이익" "영업이익(억원)" (10 ^ 8)
  /\ scaled_rule raw row "당기순이익" "당기순이익(억원)" (10 ^ 8)
  /\ scaled_rule raw row "판관비" "판관비(억원)" (10 ^ 8)
  /\ _build_display_row company_name year label
       (<["영업이익" := of_Z (-50)]> ∅) report_name !! "영업이익(억원)"
     = Some (VFloat (Fin (Q2Qc (-50 # 100000000)))).
Proof.
  intros row.
  do 6 (split; [apply scaled_value_rule, build_scaled_field; set_solver|]).
  rewrite (build_scaled_field _ _ _ _ _ "영업이익" _ 100000000) by set_solver.
  unfold scaled_value. rewrite lookup_insert_eq. float_refl.
Qed.

(** ** The claims at sample inputs *)

Example derived_q4_four_quarters :
  derived_q4 Examples.four_quarters !! "매출액" = Some (of_Z 25).
Proof. float_refl. Qed.

Example derived_q4_annual_only :
  derived_q4 Examples.annual_only !! "매출액" = Some (of_Z 100).
Proof. float_refl. Qed.

Example extract_mixed_frame :
  _extract_raw_amounts Examples.mixed_frame thstrm_amount !! "매출액" = Some (of_Z 1500)
  /\ _extract_raw_amounts Examples.mixed_frame thstrm_amount !! "영업이익" = Some (of_Z (-50))
  /\ _extract_raw_amounts Examples.mixed_frame thstrm_amount !! "당기순이익" = Some zero.
Proof. repeat split; float_refl. Qed.

(** C4 at the figure 1,234. *)
Lemma parse_amount_rules_witness :
  unsigned_figure "1,234" = true
  /\ parse_amount "1,234" = Some (of_Z 1234)
  /\ parse_amount "(1,234)" = Some (fneg (of_Z 1234)).
Proof.
  assert (parse_amount "1,234" = Some (of_Z 1234)) as H by float_refl.
  split; [reflexivity|]. split; [exact H|].
  exact (proj1 (proj2 parse_amount_rules) "1,234" (of_Z 1234) eq_refl H).
Defined.

(** C5 at the frame whose revenue line holds no number, and at a frame
    where a synonym without a line and one whose amount does not parse come
    before the synonym that gives the value. *)
Lemma parse_failure_skips_match_witness :
  (matching Examples.mixed_frame "매출액" = [Examples.line "매출액" "n/a"]
   /\ parse_amount (get_text Examples.mixed_frame thstrm_amount
                      (Examples.line "매출액" "n/a")) = None
   /\ find_amount Examples.mixed_frame thstrm_amount ["매출액"; "revenue"; "sales"]
      = find_amount Examples.mixed_frame thstrm_amount ["revenue"; "sales"])
  /\ (matching Examples.english_frame "매출액" = []
      /\ matching Examples.english_frame "revenue" = [Examples.line "Revenue" "n/a"]
      /\ matching Examples.english_frame "sales" = [Examples.line "Sales" "5"]
      /\ find_amount Examples.english_frame thstrm_amount ["매출액"; "revenue"; "sales"]
         = of_Z 5).
Proof.
  split.
  - split; [reflexivity|]. split; [reflexivity|].
    exact (proj1 (parse_failure_skips_match Examples.mixed_frame thstrm_amount)
             "매출액" ["revenue"; "sales"] _ _ eq_refl eq_refl).
  - split; [reflexivity|]. split; [reflexivity|]. split; [reflexivity|].
    assert (parse_amount (get_text Examples.english_frame thstrm_amount
                            (Examples.line "Sales" "5")) = Some (of_Z 5)) as H
      by float_refl.
    refine (proj1 (proj2 (proj2 (proj2
              (parse_failure_skips_match Examples.english_frame thstrm_amount))))
              ["매출액"; "revenue"] "sales" [] _ _ (of_Z 5) _ eq_refl H).
    intros earlier. rewrite !elem_of_cons, elem_of_nil.
    intros [->|[->|[]]]; [by left|right].
    by exists (Examples.line "Revenue" "n/a"), [].
Defined.

(** C9 at a key of that frame none of whose synonyms matches. *)
Lemma extractor_total_witness :
  ("판매비", ["판매비"; "selling expenses"]) ∈ metrics
  /\ (forall keyword, keyword ∈ ["판매비"; "selling expenses"] ->
        resolves Examples.mixed_frame thstrm_amount keyword = None)
  /\ _extract_raw_amounts Examples.mixed_frame thstrm_amount !! "판매비" = Some zero.
Proof.
  assert (("판매비", ["판매비"; "selling expenses"]) ∈ metrics) as Hin.
  { unfold metrics. rewrite !elem_of_cons. auto 10. }
  assert (forall keyword, keyword ∈ ["판매비"; "selling expenses"] ->
            resolves Examples.mixed_frame thstrm_amount keyword = None) as H.
  { intros keyword. rewrite !elem_of_cons, elem_of_nil. by intros [->|[->|[]]]. }
  split; [exact Hin|]. split; [exact H|].
  exact (proj2 (proj2 (proj2 (extractor_total Examples.mixed_frame thstrm_amount)))
           _ _ Hin H).
Defined.

(** C6 at revenue 200 and gross profit 50. *)
Lemma ratio_fields_witness :
  Examples.margins !! "매출액" = Some (of_Z 200)
  /\ of_Z 200 <> zero
  /\ Examples.margins !! "매출총이익" = Some (of_Z 50)
  /\ _build_display_row "SK" 2024 "2024Q1" Examples.margins None !! "매출총이익률(%)"
     = Some (VFloat (fmul (fdiv (of_Z 50) (of_Z 200)) (of_Z 100))).
Proof.
  assert (of_Z 200 <> zero) as Hne by (by apply truthy_true_iff).
  split; [reflexivity|]. split; [exact Hne|]. split; [reflexivity|].
  exact (proj2 (proj1 (proj2 (ratio_fields "SK" 2024 "2024Q1" Examples.margins None)))
           (of_Z 200) (of_Z 50) eq_refl Hne eq_refl).
Defined.

(** C7 at an operating loss of 50. *)
Lemma scaled_fields_witness :
  Examples.margins !! "영업이익" = Some (of_Z (-50))
  /\ of_Z (-50) <> zero
  /\ _build_display_row "SK" 2024 "2024Q1" Examples.margins None !! "영업이익(억원)"
     = Some (VFloat (fdiv (of_Z (-50)) (of_Z (10 ^ 8)))).
Proof.
  assert (of_Z (-50) <> zero) as Hne by (by apply truthy_true_iff).
  split; [reflexivity|]. split; [exact Hne|].
  exact (proj2 (proj1 (proj2 (proj2 (proj2
           (scaled_fields "SK" 2024 "2024Q1" Examples.margins None)))))
           (of_Z (-50)) eq_refl Hne).
Defined.

(** C1 at the four quarters 20, 30, 25 and the annual 100. *)
Lemma derived_q4_annual_less_quarters_witness :
  Examples.four_quarters !! "Q4" = Some (Examples.revenue 100)
  /\ derived_q4 Examples.four_quarters
     = keywise fsub (Examples.revenue 100)
         (sum3 (quarter Examples.four_quarters "Q1") (quarter Examples.four_quarters "Q2")
            (quarter Examples.four_quarters "Q3")).
Proof.
  split; [reflexivity|].
  exact (proj1 (derived_q4_annual_less_quarters Examples.four_quarters
                  (Examples.revenue 100) eq_refl)).
Defined.

(** C2 at a year with a first-quarter filing only. *)
Lemma no_annual_no_q4_witness :
  Examples.fetch_q1_only (default "" (Examples.resolve "SK")) (pretty 2024%Z) "11011" = []
  /\ forall row,
       row ∈ collect_quarterly_data Examples.resolve Examples.fetch_q1_only "SK" 2024 ->
       row !! "분기" <> Some (VStr (pretty 2024%Z ++ "Q4")).
Proof.
  split; [reflexivity|].
  exact (proj2 (proj2 (no_annual_no_q4 Examples.resolve Examples.fetch_q1_only
                         "SK" 2024 eq_refl))).
Defined.

(** C3 at the first quarter of that year. *)
Lemma direct_quarters_unchanged_witness :
  text_truthy (Examples.resolve "SK") = true
  /\ ("Q1", "11013", "1분기(당기)") ∈ direct_slices
  /\ empty (Examples.fetch_q1_only (default "" (Examples.resolve "SK")) (pretty 2024%Z)
              "11013") = false
  /\ _build_display_row "SK" 2024 (pretty 2024%Z ++ "Q1")
       (_extract_raw_amounts Examples.q1_frame thstrm_amount) (Some "1분기(당기)")
     ∈ collect_quarterly_data Examples.resolve Examples.fetch_q1_only "SK" 2024.
Proof.
  assert (("Q1", "11013", "1분기(당기)") ∈ direct_slices) as Hin
    by apply list_elem_of_here.
  split; [reflexivity|]. split; [exact Hin|]. split; [reflexivity|].
  exact (proj1 (proj2 (direct_quarters_unchanged Examples.resolve Examples.fetch_q1_only
                         "SK" 2024 "Q1" "11013" "1분기(당기)" eq_refl Hin eq_refl))).
Defined.

(** C8 at a year with no filing. *)
Lemma nothing_fetched_empty_table_witness :
  (forall q code, (q, code) ∈ report_codes ->
     Examples.fetch_nothing (default "" (Examples.resolve "SK")) (pretty 2024%Z) code = [])
  /\ collect_quarterly_data Examples.resolve Examples.fetch_nothing "SK" 2024 = [].
Proof.
  assert (forall q code, (q, code) ∈ report_codes ->
            Examples.fetch_nothing (default "" (Examples.resolve "SK")) (pretty 2024%Z) code
            = []) as H by reflexivity.
  split; [exact H|].
  exact (nothing_fetched_empty_table Examples.resolve Examples.fetch_nothing "SK" 2024
           (or_intror H)).
Defined.

(** C10 as amended, at a year whose only filing is an annual record without any of the metrics. *)
Lemma zero_amount_slices_keep_their_row_witness :
  text_truthy (Examples.resolve "SK") = true
  /\ identity_row "SK" 2024 (pretty 2024%Z ++ "Q4") (Some "4분기(당기)")
     ∈ collect_quarterly_data Examples.resolve Examples.fetch_blank_annual_only "SK" 2024.
Proof.
  split; [reflexivity|].
  refine (proj2 (proj2 (zero_amount_slices_keep_their_row Examples.resolve
                          Examples.fetch_blank_annual_only "SK" 2024 eq_refl) eq_refl) _).
  apply (bool_decide_unpack (map_Forall (fun _ x => x = zero) _)). by vm_compute.
Defined.

(** C10 as worded fails for the fourth quarter: with a first quarter of
    revenue 20 and an annual record whose extracted amounts are all zero,
    the fourth quarter's row carries the revenue -20/10^12, and the table
    holds no row of identity fields alone for it. *)
Lemma zero_annual_q4_row_not_identity :
  let fetch := Examples.fetch_q1_and_blank_annual in
  let table := collect_quarterly_data Examples.resolve fetch "SK" 2024 in
  empty (fetch "00126380" "2024" "11011") = false
  /\ all_zero (_extract_raw_amounts (fetch "00126380" "2024" "11011") thstrm_amount)
  /\ (identity_row "SK" 2024 "2024Q4" (Some "4분기(당기)") ∉ table)
  /\ (~ zero_slice_row Examples.resolve fetch "SK" 2024 "Q4" "11011" "4분기(당기)")
  /\ exists row, row ∈ table
       /\ row !! "분기" = Some (VStr "2024Q4")
       /\ row !! "매출액(조원)" = Some (VFloat (Fin (Q2Qc (-20 # 1000000000000)))).
Proof.
  intros fetch table.
  assert (all_zero (_extract_raw_amounts (fetch "00126380" "2024" "11011") thstrm_amount))
    as Hz.
  { apply (bool_decide_unpack (map_Forall (fun _ x => x = zero) _)). by vm_compute. }
  assert (identity_row "SK" 2024 "2024Q4" (Some "4분기(당기)") ∉ table) as Hout.
  { apply (bool_decide_unpack _). by vm_compute. }
  split; [reflexivity|]. split; [exact Hz|]. split; [exact Hout|]. split.
  - intros H. apply Hout. exact (H eq_refl eq_refl Hz).
  - exists (_build_display_row "SK" 2024 "2024Q4"
              (derived_q4 (collect_raw fetch "00126380" 2024).1) (Some "4분기(당기)")).
    split; [|split].
    + apply (bool_decide_unpack _). by vm_compute.
    + apply build_label.
    + float_refl.
Qed.

(** ** The second extraction path *)

Lemma mem_lstrip (c : ascii) (p : ascii -> bool) (s : string) :
  mem c (lstrip p s) = true -> mem c s = true.
Proof.
  induction s as [|d t IH]; [done|]. cbn [lstrip].
  destruct (p d); [|done]. intros H%IH. cbn [mem]. by rewrite H, orb_true_r.
Qed.

Lemma mem_rstrip (c : ascii) (p : ascii -> bool) (s : string) :
  mem c (rstrip p s) = true -> mem c s = true.
Proof.
  induction s as [|d t IH]; [done|]. cbn [rstrip mem].
  destruct (rstrip p t) as [|e u] eqn:E.
  - destruct (p d); [done|]. cbn [mem]. rewrite orb_false_r. by intros ->.
  - cbn [mem] in *. intros [->|H]%orb_true_iff; [done|].
    by rewrite (IH H), orb_true_r.
Qed.

Lemma mem_strip (c : ascii) (p : ascii -> bool) (s : string) :
  mem c (strip p s) = true -> mem c s = true.
Proof. unfold strip. intros H%mem_lstrip. exact (mem_rstrip _ _ _ H). Qed.

Lemma mem_replace_gone (a b : ascii) (s : string) :
  Ascii.eqb a b = false -> mem a (replace a b s) = false.
Proof.
  intros Hab. induction s as [|c t IH]; [done|]. cbn [replace mem].
  rewrite IH, orb_false_r. by destruct (Ascii.eqb a c) eqn:E.
Qed.

Lemma span_digits_fst (s : string) : all_digits (span_digits s).1 = true.
Proof.
  induction s as [|c t IH]; [done|]. cbn [span_digits].
  destruct (is_digit c) eqn:E; [|done].
  destruct (span_digits t) as [d r]. cbn in *. by rewrite E.
Qed.

Lemma all_digits_app (s t : string) :
  all_digits s = true -> all_digits t = true -> all_digits (s ++ t) = true.
Proof.
  induction s as [|c s IH]; [done|].
  change (String c s ++ t) with (String c (s ++ t)). cbn [all_digits].
  intros [-> ?]%andb_true_iff ?. by rewrite IH.
Qed.

Lemma digits_value_nonneg (s : string) (acc : Z) :
  all_digits s = true -> (0 <= acc)%Z -> (0 <= digits_value acc s)%Z.
Proof.
  revert acc. induction s as [|c t IH]; intros acc; [done|].
  cbn [all_digits digits_value]. intros [Hc Ht]%andb_true_iff Hacc.
  apply IH; [done|]. unfold is_digit in Hc. unfold code in *.
  apply andb_true_iff in Hc as [Hc%N.leb_le _]. lia.
Qed.

Lemma Qc_of_Z_nonneg (n : Z) : (0 <= n)%Z -> (Q2Qc 0 <= Qc_of_Z n)%Qc.
Proof. intros H%Z2Qc_inj_le. by rewrite Qc_of_Z_0 in H. Qed.

Lemma Qc_of_Z_pos (n : Z) : (0 < n)%Z -> (Q2Qc 0 < Qc_of_Z n)%Qc.
Proof. intros H%Z2Qc_inj_lt. by rewrite Qc_of_Z_0 in H. Qed.

Lemma pow10_pos (e : Z) : (Q2Qc 0 < pow10 e)%Qc.
Proof.
  unfold pow10. destruct (0 <=? e)%Z eqn:E.
  - apply Qc_of_Z_pos. apply Z.leb_le in E. by apply Z.pow_pos_nonneg.
  - apply Qcinv_pos, Qc_of_Z_pos. apply Z.leb_gt in E.
    apply Z.pow_pos_nonneg; lia.
Qed.

Lemma lt0_Fin_nonneg (q : Qc) : (Q2Qc 0 <= q)%Qc -> lt0 (Fin q) = false.
Proof.
  intros H. unfold lt0. apply bool_decide_eq_false. rewrite Qc_of_Z_0.
  by apply Qcle_not_lt.
Qed.

Lemma decimal_nonneg (s : string) (x : pyfloat) : decimal s = Some x -> lt0 x = false.
Proof.
  unfold decimal. destruct (drop_underscores _ s) as [s'|]; [|done]. cbn.
  pose proof (span_digits_fst s') as Hip.
  destruct (span_digits s') as [ip r1]. cbn in Hip.
  assert (forall fp r2, all_digits fp = true ->
            match ip ++ fp with
            | EmptyString => None
            | String _ _ as ds =>
                e ← exponent r2;
                Some (Fin (Qc_of_Z (digits_value 0 ds)
                           * pow10 (e - Z.of_nat (String.length fp)))%Qc)
            end = Some x -> lt0 x = false) as Hgo.
  { intros fp r2 Hfp. pose proof (all_digits_app ip fp Hip Hfp) as Hds.
    destruct (ip ++ fp) as [|c ds]; [done|].
    destruct (exponent r2) as [e|]; [|done]. cbn [mbind option_bind]. intros [= <-].
    apply lt0_Fin_nonneg, Qcmult_nonneg_nonneg.
    - apply Qc_of_Z_nonneg. apply (digits_value_nonneg (String c ds)); [done|lia].
    - apply Qclt_le_weak. apply pow10_pos. }
  match goal with
  | |- (let '(fp, r2) := ?X in _) = _ -> _ =>
      assert (all_digits X.1 = true) as HX;
      [|destruct X as [fp r2]; by apply Hgo]
  end.
  destruct r1 as [|c u]; [done|].
  destruct c as [[] [] [] [] [] [] [] []]; try done. apply span_digits_fst.
Qed.

Lemma float_unsigned_nonneg (s : string) (x : pyfloat) :
  float_unsigned s = Some x -> lt0 x = false.
Proof.
  unfold float_unsigned.
  destruct (_ || _); [by intros [= <-]|].
  destruct (String.eqb _ _); [by intros [= <-]|]. apply decimal_nonneg.
Qed.

Lemma py_float_nonneg (s : string) (x : pyfloat) :
  mem "-"%char s = false -> py_float s = Some x -> lt0 x = false.
Proof.
  intros Hs. unfold py_float.
  destruct (strip is_space s) as [|c u] eqn:E; [apply float_unsigned_nonneg|].
  destruct (Ascii.eqb c "-"%char) eqn:Ec.
  - apply Ascii.eqb_eq in Ec as ->.
    assert (mem "-"%char (strip is_space s) = true) as H by by rewrite E.
    apply mem_strip in H. congruence.
  - destruct (Ascii.eqb c "+"%char); apply float_unsigned_nonneg.
Qed.

Lemma key_metrics_parse_nonneg (raw : string) (x : pyfloat) :
  KeyMetrics.parse_amount raw = Some x -> lt0 x = false.
Proof. apply py_float_nonneg. by apply mem_replace_gone. Qed.

(** X1.  The amount the inner search of [_extract_key_metrics] finds is
    never below zero: every dash of the text has become a zero before the
    text is read as a number. *)
Theorem key_metrics_amount_never_negative (df : DataFrame) (keywords : list string) :
  lt0 (KeyMetrics.find_amount df keywords) = false.
Proof.
  induction keywords as [|keyword rest IH]; cbn [KeyMetrics.find_amount].
  - apply lt0_Fin_nonneg, Qc_of_Z_nonneg. lia.
  - destruct (matching df keyword) as [|r rs]; [done|].
    destruct (has_column thstrm_amount df); [|done].
    destruct (KeyMetrics.parse_amount _) as [x|] eqn:E; [|done].
    by apply key_metrics_parse_nonneg in E.
Qed.

Lemma remove_absent (c : ascii) (s : string) : mem c s = false -> remove c s = s.
Proof.
  induction s as [|d t IH]; [done|]. cbn [mem remove].
  intros [-> Ht]%orb_false_iff. by rewrite IH.
Qed.

Lemma replace_absent (a b : ascii) (s : string) : mem a s = false -> replace a b s = s.
Proof.
  induction s as [|d t IH]; [done|]. cbn [mem replace].
  intros [-> Ht]%orb_false_iff. by rewrite IH.
Qed.

Lemma drop_underscores_absent (prev : ascii) (s : string) :
  mem "_"%char s = false -> Ascii.eqb prev "_"%char = false ->
  drop_underscores prev s = Some s.
Proof.
  revert prev. induction s as [|c t IH]; intros prev; cbn [mem drop_underscores].
  - by intros _ ->.
  - intros [Hc Ht]%orb_false_iff Hprev.
    rewrite Ascii.eqb_sym in Hc. rewrite Hc, Hprev. cbn [andb].
    by rewrite IH.
Qed.

Lemma all_digits_mem (c : ascii) (s : string) :
  all_digits s = true -> is_digit c = false -> mem c s = false.
Proof.
  intros Hs Hc. induction s as [|d t IH]; [done|]. cbn [all_digits mem] in *.
  apply andb_true_iff in Hs as [Hd Ht]. rewrite IH by done.
  destruct (Ascii.eqb c d) eqn:E; [|done].
  apply Ascii.eqb_eq in E as ->. congruence.
Qed.

Lemma all_digits_free (p : ascii -> bool) (s : string) :
  (forall c, is_digit c = true -> p c = false) ->
  all_digits s = true -> free_of p s.
Proof.
  intros Hp. induction s as [|d t IH]; [done|]. cbn [all_digits free_of].
  intros [Hd Ht]%andb_true_iff. split; auto.
Qed.

Lemma rstrip_free (p : ascii -> bool) (s : string) : free_of p s -> rstrip p s = s.
Proof.
  intros H. rewrite <- (append_nil_r s) at 1.
  rewrite rstrip_app_free by done. apply append_nil_r.
Qed.

Lemma digit_plain (c : ascii) :
  is_digit c = true ->
  is_space c = false /\ lower_char c = c
  /\ Ascii.eqb c "i"%char = false /\ Ascii.eqb c "n"%char = false.
Proof.
  destruct c as [[] [] [] [] [] [] [] []]; vm_compute; intros H;
    first [discriminate H | done].
Qed.

Lemma span_digits_all (s : string) :
  all_digits s = true -> span_digits s = (s, EmptyString).
Proof.
  induction s as [|c t IH]; [done|]. cbn [all_digits span_digits].
  intros [-> Ht]%andb_true_iff. by rewrite IH.
Qed.

Lemma of_Z_mul_one (v : Z) : (Qc_of_Z v * pow10 (0 - Z.of_nat 0))%Qc = Qc_of_Z v.
Proof.
  change (pow10 (0 - Z.of_nat 0)) with (Qc_of_Z 1).
  rewrite <- Z2Qc_inj_mul. by rewrite Z.mul_1_r.
Qed.

(** A run of digits reads as its decimal value. *)
Lemma float_unsigned_digits (c : ascii) (t : string) :
  all_digits (String c t) = true ->
  float_unsigned (String c t) = Some (of_Z (digits_value 0 (String c t))).
Proof.
  intros Hs. pose proof Hs as [Hc Ht]%andb_true_iff.
  destruct (digit_plain c Hc) as (_ & Hlow & Hi & Hn).
  unfold float_unsigned. cbn [lower String.eqb]. rewrite Hlow, Hi, Hn. cbn [andb orb].
  unfold decimal.
  rewrite drop_underscores_absent by (try done; by apply all_digits_mem).
  cbn [mbind option_bind]. rewrite (span_digits_all _ Hs).
  rewrite append_nil_r. cbn [exponent mbind option_bind String.length].
  by rewrite of_Z_mul_one.
Qed.

Lemma strip_space_digits (c : ascii) (t : string) :
  all_digits (String c t) = true -> strip is_space (String c t) = String c t.
Proof.
  intros Hs. pose proof Hs as [Hc Ht]%andb_true_iff.
  destruct (digit_plain c Hc) as (Hsp & _).
  unfold strip. rewrite rstrip_free.
  - cbn [lstrip]. by rewrite Hsp.
  - apply all_digits_free; [|done]. intros d Hd. by destruct (digit_plain d Hd).
Qed.

Lemma fneg_of_Z (v : Z) : fneg (of_Z v) = of_Z (- v).
Proof. unfold of_Z, fneg. by rewrite Z2Qc_inj_opp. Qed.

Lemma parse_amount_paren_neg (N : string) (x : pyfloat) :
  unsigned_figure N = true -> parse_amount N = Some x ->
  parse_amount ("(" ++ N ++ ")") = Some (fneg x).
Proof.
  intros (d & t & E & Hd & Hl & Hr)%unsigned_figure_inv HN.
  rewrite parse_amount_app_commas.
  rewrite parse_amount_commas in HN.
  rewrite (parse_amount_plain _ d t) in HN by (try done; by rewrite remove_idem).
  rewrite (parse_amount_parenthesized _ d t) by (try done; by rewrite remove_idem).
  by rewrite HN.
Qed.

Lemma lead_of_digit (c : ascii) : is_digit c = true -> lead_char c = true.
Proof. unfold lead_char. by intros ->. Qed.

(** X2.  A figure written with a leading dash keeps its sign on the first
    extraction path and loses it on the second; a figure in parentheses,
    negative on the first path, does not parse on the second. *)
Theorem key_metrics_sign_is_lost (N : string) :
  N <> "" -> all_digits N = true ->
  parse_amount ("-" ++ N) = Some (of_Z (- digits_value 0 N))
  /\ KeyMetrics.parse_amount ("-" ++ N) = Some (of_Z (digits_value 0 N))
  /\ parse_amount ("(" ++ N ++ ")") = Some (of_Z (- digits_value 0 N))
  /\ KeyMetrics.parse_amount ("(" ++ N ++ ")") = None.
Proof.
  intros Hne HN. destruct N as [|c t]; [done|]. clear Hne.
  pose proof HN as [Hc _]%andb_true_iff.
  destruct (digit_plain c Hc) as (Hsp & _).
  destruct (lead_char_plain c (lead_of_digit c Hc)) as (_ & _ & Hmi & Hpl).
  assert (forall d, is_digit d = false -> mem d (String c t) = false) as Habs
    by (intros d Hd; by apply all_digits_mem).
  pose proof (strip_space_digits c t HN) as Hstrip.
  pose proof (float_unsigned_digits c t HN) as Hfloat.
  assert (free_of is_space (String c t)) as Hfree
    by (apply all_digits_free; [intros d Hd; by destruct (digit_plain d Hd)|done]).
  remember (String c t) as M eqn:EM.
  assert (parse_amount M = Some (of_Z (digits_value 0 M))) as Hplain.
  { unfold parse_amount. rewrite remove_absent by by apply Habs.
    rewrite (Habs "("%char) by done. cbn [andb]. rewrite Hstrip.
    unfold py_float. rewrite Hstrip. subst M. cbn [String.eqb].
    by rewrite Hmi, Hpl. }
  assert (unsigned_figure M = true) as Hfig.
  { unfold unsigned_figure. rewrite !Habs by done.
    rewrite remove_absent by by apply Habs. subst M. by apply lead_of_digit. }
  assert (strip is_space (String "-"%char M) = String "-"%char M) as Hdash.
  { unfold strip. rewrite rstrip_keep by done. by rewrite rstrip_free. }
  repeat split.
  - change ("-" ++ M) with (String "-"%char M). unfold parse_amount.
    change (remove ","%char (String "-"%char M)) with (String "-"%char (remove ","%char M)).
    rewrite remove_absent by by apply Habs.
    change (mem "("%char (String "-"%char M)) with (mem "("%char M).
    rewrite (Habs "("%char) by done. cbn [andb]. rewrite Hdash.
    assert (String.eqb (String "-"%char M) "-" = false) as -> by (by subst M).
    assert (String.eqb (String "-"%char M) "" = false) as -> by done.
    cbn [orb]. unfold py_float. rewrite Hdash.
    change (Ascii.eqb "-" "-") with true. cbn iota.
    rewrite Hfloat. cbn [fmap option_fmap option_map]. by rewrite fneg_of_Z.
  - change ("-" ++ M) with (String "-"%char M). unfold KeyMetrics.parse_amount.
    change (remove ","%char (String "-"%char M)) with (String "-"%char (remove ","%char M)).
    rewrite remove_absent by by apply Habs.
    change (replace "-"%char "0"%char (String "-"%char M))
      with (String "0"%char (replace "-"%char "0"%char M)).
    rewrite replace_absent by by apply Habs.
    assert (all_digits (String "0"%char M) = true) as H0 by (by subst M).
    unfold py_float. rewrite (strip_space_digits _ _ H0).
    change (Ascii.eqb "0" "-") with false. change (Ascii.eqb "0" "+") with false.
    cbn iota. by rewrite (float_unsigned_digits _ _ H0).
  - rewrite <- fneg_of_Z. by apply parse_amount_paren_neg.
  - unfold KeyMetrics.parse_amount.
    assert (forall d, is_digit d = false -> Ascii.eqb d "("%char = false ->
              Ascii.eqb d ")"%char = false -> mem d ("(" ++ M ++ ")") = false) as Habs'.
    { intros d Hd H1 H2. rewrite !mem_app, Habs by done. cbn [mem]. by rewrite H1, H2. }
    rewrite remove_absent, replace_absent by by apply Habs'.
    unfold py_float, strip.
    change ("(" ++ M ++ ")") with (String "("%char (M ++ ")")).
    rewrite rstrip_keep by done. rewrite rstrip_app_free by done.
    change (rstrip is_space ")") with ")". cbn [lstrip].
    change (is_space "("%char) with false. cbn iota.
    change (Ascii.eqb "(" "-") with false. change (Ascii.eqb "(" "+") with false.
    cbn iota. unfold float_unsigned. cbn [lower String.eqb].
    change (lower_char "("%char) with "("%char.
    change (Ascii.eqb "(" "i") with false. change (Ascii.eqb "(" "n") with false.
    cbn [andb orb]. unfold decimal.
    rewrite drop_underscores_absent
      by (try done; change (String "("%char (M ++ ")")) with ("(" ++ M ++ ")");
          by apply Habs').
    cbn [mbind option_bind span_digits]. change (is_digit "("%char) with false.
    cbn iota. done.
Qed.

Lemma put_positive_lookup_ne amount field unit (m : gmap string value) f :
  field <> f -> KeyMetrics.put_positive amount field unit m !! f = m !! f.
Proof.
  intros Hne. unfold KeyMetrics.put_positive.
  destruct (gt0 amount); [|done]. by rewrite lookup_insert_ne.
Qed.

Lemma put_positive_lookup_eq amount field unit (m : gmap string value) :
  m !! field = None ->
  KeyMetrics.put_positive amount field unit m !! field
  = if gt0 amount then Some (VFloat (fdiv amount (of_Z unit))) else None.
Proof.
  intros Hnone. unfold KeyMetrics.put_positive.
  destruct (gt0 amount); [|done]. by rewrite lookup_insert_eq.
Qed.

Lemma put_ratio_lookup_ne den num field formula (m : gmap string value) f :
  field <> f -> KeyMetrics.put_ratio den num field formula m !! f = m !! f.
Proof.
  intros Hne. unfold KeyMetrics.put_ratio.
  destruct (m !! den) as [[| |d]|]; try done.
  destruct (m !! num) as [[| |n]|]; try done.
  destruct (gt0 d); [|done]. by rewrite lookup_insert_ne.
Qed.


Lemma put_positive_idle amount field unit (m : gmap string value) :
  gt0 amount = false -> KeyMetrics.put_positive amount field unit m = m.
Proof. unfold KeyMetrics.put_positive. by intros ->. Qed.

Lemma put_ratio_idle den num field formula (m : gmap string value) :
  m !! den = None -> KeyMetrics.put_ratio den num field formula m = m.
Proof. unfold KeyMetrics.put_ratio. by intros ->. Qed.

Lemma two_keys_size {V} (m : gmap string V) (a b : string) :
  a <> b -> is_Some (m !! a) -> is_Some (m !! b) -> 1 < size m.
Proof.
  intros Hne Ha Hb.
  pose proof (map_size_delete_Some a m Ha) as Hsize.
  assert (size (delete a m) <> 0) as Hpos.
  { apply (map_size_ne_0_lookup_2 _ b). by rewrite lookup_delete_ne. }
  assert (size m <> 0) as Hm by by apply (map_size_ne_0_lookup_2 _ a).
  lia.
Qed.

(** Rewrites a lookup through the assignments of [_extract_key_metrics]
    that write other fields. *)
Ltac skip_metrics :=
  rewrite ?put_ratio_lookup_ne by done; rewrite ?put_positive_lookup_ne by done.

Lemma key_metrics_unfold (df : DataFrame) (quarter : string) (year : Z) :
  KeyMetrics._extract_key_metrics df quarter year
  = if bool_decide (1 < size (key_metrics_map df quarter year))
    then Some (key_metrics_map df quarter year) else None.
Proof. reflexivity. Qed.

Lemma key_metrics_map_scaled df quarter year (field : string) (unit : Z)
    (keywords : list string) :
  (field, unit, keywords) ∈ key_metrics_fields ->
  key_metrics_map df quarter year !! field
  = if gt0 (KeyMetrics.find_amount df keywords)
    then Some (VFloat (fdiv (KeyMetrics.find_amount df keywords) (of_Z unit)))
    else None.
Proof.
  intros Hin. unfold key_metrics_map, key_metrics_fields in *.
  repeat (apply elem_of_cons in Hin as [[= -> -> ->]|Hin];
    [skip_metrics; (rewrite put_positive_lookup_eq; [done|]); skip_metrics;
     by rewrite lookup_insert_ne, lookup_empty|]).
  by apply elem_of_nil in Hin.
Qed.

Lemma key_metrics_map_label df quarter year :
  key_metrics_map df quarter year !! "분기" = Some (VStr (pretty year ++ quarter)).
Proof. unfold key_metrics_map. skip_metrics. by rewrite lookup_insert_eq. Qed.

Lemma key_metrics_map_idle df quarter year :
  (forall field unit keywords, (field, unit, keywords) ∈ key_metrics_fields ->
     gt0 (KeyMetrics.find_amount df keywords) = false) ->
  key_metrics_map df quarter year = <["분기" := VStr (pretty year ++ quarter)]> ∅.
Proof.
  intros H. unfold key_metrics_map.
  rewrite !put_positive_idle
    by (eapply H; unfold key_metrics_fields; rewrite !elem_of_cons; eauto 10).
  by rewrite !put_ratio_idle
    by (rewrite ?put_ratio_lookup_ne by done; by rewrite lookup_insert_ne, lookup_empty).
Qed.

(** X3.  [_extract_key_metrics] returns nothing exactly when none of the
    eight amounts it searched is above zero; a dictionary it returns holds
    the quarter label and, for each of the eight, the scaled amount when the
    amount is above zero and no field otherwise: a zero, a loss or a
    not-a-number leaves no field. *)
Theorem key_metrics_keeps_positive_amounts (df : DataFrame) (quarter : string) (year : Z) :
  (KeyMetrics._extract_key_metrics df quarter year = None
   <-> forall field unit keywords, (field, unit, keywords) ∈ key_metrics_fields ->
         gt0 (KeyMetrics.find_amount df keywords) = false)
  /\ forall metrics, KeyMetrics._extract_key_metrics df quarter year = Some metrics ->
       metrics !! "분기" = Some (VStr (pretty year ++ quarter))
       /\ forall field unit keywords, (field, unit, keywords) ∈ key_metrics_fields ->
            metrics !! field
            = if gt0 (KeyMetrics.find_amount df keywords)
              then Some (VFloat (fdiv (KeyMetrics.find_amount df keywords) (of_Z unit)))
              else None.
Proof.
  rewrite key_metrics_unfold. split.
  - split.
    + intros Hnone field unit keywords Hin.
      destruct (gt0 (KeyMetrics.find_amount df keywords)) eqn:E; [|done].
      exfalso. case_bool_decide as Hsize; [done|]. apply Hsize.
      apply (two_keys_size _ "분기" field).
      * unfold key_metrics_fields in Hin. rewrite !elem_of_cons, elem_of_nil in Hin.
        destruct Hin as [[= -> _ _]|[[= -> _ _]|[[= -> _ _]|[[= -> _ _]|
          [[= -> _ _]|[[= -> _ _]|[[= -> _ _]|[[= -> _ _]|[]]]]]]]]]; done.
      * by rewrite key_metrics_map_label.
      * by rewrite (key_metrics_map_scaled _ _ _ _ _ _ Hin), E.
    + intros H. rewrite (key_metrics_map_idle _ _ _ H).
      by rewrite insert_empty, map_size_singleton.
  - intros metrics. case_bool_decide; [|done]. intros [= <-].
    split; [apply key_metrics_map_label|]. apply key_metrics_map_scaled.
Qed.


(** ** The filings collector *)

Section CorpCodeSearch.

Variable isdigit : string -> bool.

Lemma first_with_Some (key : DartAPICollector.company -> option string)
    (search_name : string) (all_companies : list DartAPICollector.company)
    (c : DartAPICollector.company) :
  DartAPICollector.first_with key search_name all_companies = Some c ->
  c ∈ all_companies /\ key c = Some search_name.
Proof.
  unfold DartAPICollector.first_with. intros [Hin Hkey]%find_some.
  split; [by apply list_elem_of_In|]. by apply bool_decide_eq_true in Hkey.
Qed.

Lemma first_with_None (key : DartAPICollector.company -> option string)
    (search_name : string) (all_companies : list DartAPICollector.company) :
  (forall c, c ∈ all_companies -> key c <> Some search_name) ->
  DartAPICollector.first_with key search_name all_companies = None.
Proof.
  intros H. unfold DartAPICollector.first_with.
  destruct (List.find _ _) as [c|] eqn:E; [|done].
  apply find_some in E as [Hin Hkey]. apply bool_decide_eq_true in Hkey.
  by apply list_elem_of_In, H in Hin.
Qed.

(** X5.  A corporation code returned by [get_corp_code_enhanced] is the code
    of a company of the downloaded list whose name is one of the searched
    names, or whose stock code is a searched name made of digits. *)
Theorem corp_code_search_sound (company_name_mapping : gmap string (list string))
    (download : option (list DartAPICollector.company)) (company_name k : string) :
  DartAPICollector.get_corp_code_enhanced isdigit company_name_mapping download company_name
  = Some k ->
  exists all_companies c search_name,
    download = Some all_companies
    /\ c ∈ all_companies
    /\ DartAPICollector.code c = Some k
    /\ search_name ∈ default [company_name] (company_name_mapping !! company_name)
    /\ (DartAPICollector.name c = Some search_name
        \/ (isdigit search_name = true
            /\ DartAPICollector.stock_code c = Some search_name)).
Proof.
  unfold DartAPICollector.get_corp_code_enhanced.
  destruct download as [all_companies|]; [|done].
  generalize (default [company_name] (company_name_mapping !! company_name)).
  intros search_names Hk. exists all_companies.
  induction search_names as [|search_name rest IH]; [done|].
  cbn [DartAPICollector.search] in Hk.
  destruct (isdigit search_name) eqn:Hd.
  - destruct (DartAPICollector.first_with DartAPICollector.stock_code _ _) as [c|] eqn:Es.
    + apply first_with_Some in Es as [Hin Hkey].
      exists c, search_name. repeat split; auto using list_elem_of_here.
    + destruct (DartAPICollector.first_with DartAPICollector.name _ _) as [c|] eqn:En.
      * apply first_with_Some in En as [Hin Hkey].
        exists c, search_name. repeat split; auto using list_elem_of_here.
      * destruct (IH Hk) as (c & n & ? & ? & ? & ? & ?).
        exists c, n. repeat split; auto using list_elem_of_further.
  - destruct (DartAPICollector.first_with DartAPICollector.name _ _) as [c|] eqn:En.
    + apply first_with_Some in En as [Hin Hkey].
      exists c, search_name. repeat split; auto using list_elem_of_here.
    + destruct (IH Hk) as (c & n & ? & ? & ? & ? & ?).
      exists c, n. repeat split; auto using list_elem_of_further.
Qed.

(** X6.  [get_corp_code_enhanced] returns nothing when the download fails,
    and when no company of the list has a searched name for its name, or a
    searched name made of digits for its stock code. *)
Theorem corp_code_search_complete (company_name_mapping : gmap string (list string))
    (download : option (list DartAPICollector.company)) (company_name : string) :
  (forall all_companies, download = Some all_companies ->
     forall search_name c,
       search_name ∈ default [company_name] (company_name_mapping !! company_name) ->
       c ∈ all_companies ->
       DartAPICollector.name c <> Some search_name
       /\ (isdigit search_name = true ->
           DartAPICollector.stock_code c <> Some search_name)) ->
  DartAPICollector.get_corp_code_enhanced isdigit company_name_mapping download company_name
  = None.
Proof.
  unfold DartAPICollector.get_corp_code_enhanced.
  destruct download as [all_companies|]; [|done]. intros H.
  specialize (H all_companies eq_refl). revert H.
  generalize (default [company_name] (company_name_mapping !! company_name)).
  intros search_names H.
  induction search_names as [|search_name rest IH]; [done|].
  cbn [DartAPICollector.search].
  assert (DartAPICollector.first_with DartAPICollector.name search_name all_companies
          = None) as ->.
  { apply first_with_None. intros c Hc.
    by apply (H search_name c); [apply list_elem_of_here|]. }
  assert ((if isdigit search_name
           then DartAPICollector.first_with DartAPICollector.stock_code search_name
                  all_companies
           else None) = None) as ->.
  { destruct (isdigit search_name) eqn:Hd; [|done].
    apply first_with_None. intros c Hc.
    by apply (H search_name c); [apply list_elem_of_here|..]. }
  apply IH. intros n c Hn Hc. apply H; [by apply list_elem_of_further|done].
Qed.

End CorpCodeSearch.

Section AutoFacts.

Variable resolve : string -> option string.
Variable get_financial_statement : string -> string -> string -> DataFrame.

Abbreviation auto := (DartAPICollector.get_company_financials_auto resolve
                        get_financial_statement).
Abbreviation first_statement := (DartAPICollector.first_statement get_financial_statement).

Lemma first_statement_none tracking company_name corp_code bsns_year report_codes :
  (first_statement tracking company_name corp_code bsns_year report_codes).1 = None
  <-> forall report_code, report_code ∈ report_codes ->
        empty (get_financial_statement corp_code bsns_year report_code) = true.
Proof.
  induction report_codes as [|report_code rest IH]; cbn [DartAPICollector.first_statement].
  - split; [|done]. intros _ ? []%elem_of_nil.
  - destruct (empty (get_financial_statement corp_code bsns_year report_code)) eqn:E.
    + rewrite IH. split.
      * intros H c [->|Hc]%elem_of_cons; auto.
      * intros H c Hc. apply H. by apply list_elem_of_further.
    + split; [done|]. intros H. rewrite H in E; [done|]. apply list_elem_of_here.
Qed.

Lemma first_statement_idle tracking company_name corp_code bsns_year report_codes :
  (first_statement tracking company_name corp_code bsns_year report_codes).1 = None ->
  (first_statement tracking company_name corp_code bsns_year report_codes).2 = tracking.
Proof.
  induction report_codes as [|report_code rest IH]; cbn [DartAPICollector.first_statement];
    [done|].
  by destruct (empty _).
Qed.

Lemma first_statement_first tracking company_name corp_code bsns_year
    (before : list string) (report_code : string) (after : list string) :
  (forall earlier, earlier ∈ before ->
     empty (get_financial_statement corp_code bsns_year earlier) = true) ->
  empty (get_financial_statement corp_code bsns_year report_code) = false ->
  first_statement tracking company_name corp_code bsns_year
    (before ++ report_code :: after)%list
  = (Some (get_financial_statement corp_code bsns_year report_code),
     DartAPICollector._save_source_info tracking company_name corp_code report_code
       bsns_year (DartAPICollector._get_rcept_no corp_code bsns_year report_code)).
Proof.
  intros Hbefore Hcode. induction before as [|earlier before IH];
    cbn [app DartAPICollector.first_statement].
  - by rewrite Hcode.
  - rewrite Hbefore by apply list_elem_of_here. apply IH.
    intros e He. apply Hbefore. by apply list_elem_of_further.
Qed.

Lemma first_statement_found tracking company_name corp_code bsns_year report_codes df :
  (first_statement tracking company_name corp_code bsns_year report_codes).1 = Some df ->
  exists report_code,
    report_code ∈ report_codes
    /\ df = get_financial_statement corp_code bsns_year report_code
    /\ empty df = false
    /\ (first_statement tracking company_name corp_code bsns_year report_codes).2
       = DartAPICollector._save_source_info tracking company_name corp_code report_code
           bsns_year (DartAPICollector._get_rcept_no corp_code bsns_year report_code).
Proof.
  induction report_codes as [|report_code rest IH]; cbn [DartAPICollector.first_statement];
    [done|].
  destruct (empty (get_financial_statement corp_code bsns_year report_code)) eqn:E.
  - intros (c & ? & ? & ? & ?)%IH. exists c. auto using list_elem_of_further.
  - intros [= <-]. exists report_code. auto using list_elem_of_here.
Qed.

(** X7.  With the company resolved, [get_company_financials_auto] returns
    the statement of the first report code, in the order annual, third
    quarter, half year, first quarter, whose statement is not empty, and
    records that code's source under the company. *)
Theorem auto_first_in_order (tracking : gmap string DartAPICollector.source_info)
    (company_name : string) (bsns_year : Z)
    (before : list string) (report_code : string) (after : list string) :
  text_truthy (resolve company_name) = true ->
  DartAPICollector.auto_report_codes = (before ++ report_code :: after)%list ->
  (forall earlier, earlier ∈ before ->
     empty (get_financial_statement (default "" (resolve company_name))
              (pretty bsns_year) earlier) = true) ->
  empty (get_financial_statement (default "" (resolve company_name))
           (pretty bsns_year) report_code) = false ->
  auto tracking company_name bsns_year
  = (Some (get_financial_statement (default "" (resolve company_name))
             (pretty bsns_year) report_code),
     DartAPICollector._save_source_info tracking company_name
       (default "" (resolve company_name)) report_code (pretty bsns_year)
       (DartAPICollector._get_rcept_no (default "" (resolve company_name))
          (pretty bsns_year) report_code)).
Proof.
  intros Hcorp Hsplit Hbefore Hcode.
  unfold DartAPICollector.get_company_financials_auto. rewrite Hcorp, Hsplit.
  by apply first_statement_first.
Qed.

(** X8.  [get_company_financials_auto] returns no statement exactly when the
    company is not resolved or all four statements are empty, and leaves the
    source table as it was in that case. *)
Theorem auto_none_iff (tracking : gmap string DartAPICollector.source_info)
    (company_name : string) (bsns_year : Z) :
  ((auto tracking company_name bsns_year).1 = None
   <-> text_truthy (resolve company_name) = false
       \/ forall report_code, report_code ∈ DartAPICollector.auto_report_codes ->
            empty (get_financial_statement (default "" (resolve company_name))
                     (pretty bsns_year) report_code) = true)
  /\ ((auto tracking company_name bsns_year).1 = None ->
      (auto tracking company_name bsns_year).2 = tracking).
Proof.
  unfold DartAPICollector.get_company_financials_auto.
  destruct (text_truthy (resolve company_name)); [|by split; [split; auto|]].
  split; [|apply first_statement_idle].
  rewrite first_statement_none. split; [auto|]. by intros [|].
Qed.

(** X9.  [get_company_financials_auto] touches no other company's entry of
    the source table; when it returns a statement, the company's entry holds
    the resolved code, the year, one of the four report names (never the
    fallback name) and the page address made of the receipt number. *)
Theorem auto_source_tracking (tracking : gmap string DartAPICollector.source_info)
    (company_name : string) (bsns_year : Z) :
  (forall other, other <> company_name ->
     (auto tracking company_name bsns_year).2 !! other = tracking !! other)
  /\ forall df, (auto tracking company_name bsns_year).1 = Some df ->
       exists info,
         (auto tracking company_name bsns_year).2 !! company_name = Some info
         /\ DartAPICollector.company_code info = default "" (resolve company_name)
         /\ DartAPICollector.year info = pretty bsns_year
         /\ DartAPICollector.report_type info
            ∈ ["사업보고서"; "3분기보고서"; "반기보고서"; "1분기보고서"]
         /\ DartAPICollector.dart_url info
            = "https://dart.fss.or.kr/dsaf001/main.do?rcpNo="
              ++ DartAPICollector.rcept_no info.
Proof.
  unfold DartAPICollector.get_company_financials_auto.
  destruct (text_truthy (resolve company_name)); [|by split].
  set (corp_code := default "" (resolve company_name)).
  split.
  - intros other Hne.
    destruct (first_statement tracking company_name corp_code (pretty bsns_year)
                DartAPICollector.auto_report_codes).1 as [df|] eqn:E.
    + apply first_statement_found in E as (c & _ & _ & _ & ->).
      unfold DartAPICollector._save_source_info. by rewrite lookup_insert_ne.
    + by rewrite first_statement_idle.
  - intros df (c & Hc & _ & _ & ->)%first_statement_found.
    unfold DartAPICollector._save_source_info. rewrite lookup_insert_eq.
    eexists. split; [done|].
    cbn [DartAPICollector.company_code DartAPICollector.year DartAPICollector.report_type
         DartAPICollector.dart_url DartAPICollector.rcept_no].
    split; [done|]. split; [done|]. split; [|done].
    unfold DartAPICollector.auto_report_codes in Hc.
    rewrite !elem_of_cons, elem_of_nil in Hc.
    destruct Hc as [->|[->|[->|[->|[]]]]]; apply (bool_decide_unpack _); by vm_compute.
Qed.

Lemma collect_nonempty (company_name : string) (year : Z) (q code : string) :
  text_truthy (resolve company_name) = true ->
  (q, code) ∈ report_codes ->
  empty (get_financial_statement (default "" (resolve company_name)) (pretty year) code)
  = false ->
  collect_quarterly_data resolve get_financial_statement company_name year <> [].
Proof.
  intros Hcorp Hin Hdf.
  destruct (collect_raw_lookup get_financial_statement (default "" (resolve company_name))
              year q code Hin) as [Hcurr _].
  unfold slice_curr in Hcurr. rewrite Hdf in Hcurr.
  rewrite collect_unfold, Hcorp. cbv zeta. rewrite (lookup_truthy _ _ _ Hcurr).
  unfold report_codes in Hin. rewrite !elem_of_cons, elem_of_nil in Hin.
  assert (forall (row : gmap string value) rows, row ∈ rows -> rows <> []) as Hne
    by (intros row rows Hr ->; by apply elem_of_nil in Hr).
  destruct Hin as [[= -> ->]|[[= -> ->]|[[= -> ->]|[[= -> ->]|[]]]]].
  - eapply Hne, (build_rows_direct _ _ _ _ "Q1" "11013" "1분기(당기)");
      [apply list_elem_of_here|]. unfold quarter. rewrite Hcurr. apply extract_truthy.
  - eapply Hne, (build_rows_direct _ _ _ _ "Q2" "11012" "2분기(당기)");
      [unfold direct_slices; rewrite !elem_of_cons; auto|].
    unfold quarter. rewrite Hcurr. apply extract_truthy.
  - eapply Hne, (build_rows_direct _ _ _ _ "Q3" "11014" "3분기(당기)");
      [unfold direct_slices; rewrite !elem_of_cons; auto|].
    unfold quarter. rewrite Hcurr. apply extract_truthy.
  - eapply Hne, build_rows_q4. eapply derived_q4_truthy; [exact Hcurr|].
    apply extract_truthy.
Qed.

(** X10.  For the same company, year and collaborators,
    [get_company_financials_auto] returns no statement exactly when
    [collect_quarterly_data] returns the empty table. *)
Theorem auto_none_iff_collect_empty (tracking : gmap string DartAPICollector.source_info)
    (company_name : string) (year : Z) :
  (auto tracking company_name year).1 = None
  <-> collect_quarterly_data resolve get_financial_statement company_name year = [].
Proof.
  unfold DartAPICollector.get_company_financials_auto.
  destruct (text_truthy (resolve company_name)) eqn:Hcorp.
  - rewrite first_statement_none. split.
    + intros H. rewrite collect_unfold, Hcorp. cbv zeta.
      rewrite collect_raw_nothing; [done|].
      intros q code Hin. specialize (H code).
      destruct (get_financial_statement _ _ code); [done|].
      discriminate H. unfold report_codes in Hin.
      unfold DartAPICollector.auto_report_codes.
      rewrite !elem_of_cons, elem_of_nil in Hin. rewrite !elem_of_cons.
      destruct Hin as [[= _ ->]|[[= _ ->]|[[= _ ->]|[[= _ ->]|[]]]]]; auto 10.
    + intros Hempty code Hcode.
      destruct (empty (get_financial_statement _ _ code)) eqn:E; [done|].
      exfalso. unfold DartAPICollector.auto_report_codes in Hcode.
      rewrite !elem_of_cons, elem_of_nil in Hcode.
      assert (exists q, (q, code) ∈ report_codes) as [q Hq].
      { unfold report_codes.
        destruct Hcode as [->|[->|[->|[->|[]]]]];
          [exists "Q4"|exists "Q3"|exists "Q2"|exists "Q1"];
          rewrite !elem_of_cons; auto 10. }
      by apply (collect_nonempty company_name year q code Hcorp Hq E).
  - split; [|done]. intros _. by rewrite collect_unfold, Hcorp.
Qed.

End AutoFacts.

(** ** Substrings *)

Lemma append_assoc (a b c : string) : (a ++ b) ++ c = a ++ b ++ c.
Proof.
  induction a as [|x a IH]; [done|].
  change ((String x a ++ b) ++ c) with (String x ((a ++ b) ++ c)). by rewrite IH.
Qed.

Lemma prefix_app (p s : string) :
  String.prefix p s = true <-> exists r, s = p ++ r.
Proof.
  revert s. induction p as [|a p IH]; intros s.
  - split; [intros _; exists s; reflexivity|intros _; by destruct s].
  - destruct s as [|b s]; cbn [String.prefix].
    + split; [done|]. by intros [r [=]].
    + destruct (ascii_dec a b) as [->|Hne].
      * rewrite IH. split; intros [r Hr]; exists r.
        -- by rewrite Hr.
        -- by injection Hr.
      * split; [done|]. intros [r [= ? _]]. congruence.
Qed.

Lemma contains_app (p s : string) :
  contains p s = true <-> exists a b, s = a ++ p ++ b.
Proof.
  induction s as [|x s IH]; cbn [contains].
  - rewrite orb_false_r, prefix_app. split.
    + intros [r Hr]. by exists "", r.
    + intros (a & b & Hab). destruct a as [|y a]; [by exists b|done].
  - rewrite orb_true_iff, prefix_app, IH. split.
    + intros [[r Hr]|(a & b & Hab)].
      * by exists "", r.
      * exists (String x a), b. by rewrite Hab.
    + intros (a & b & Hab). destruct a as [|y a].
      * left. by exists b.
      * right. exists a, b. by injection Hab.
Qed.

Lemma contains_trans (p q s : string) :
  contains p q = true -> contains q s = true -> contains p s = true.
Proof.
  rewrite !contains_app. intros (a & b & ->) (c & d & ->).
  exists (c ++ a), (b ++ d). by rewrite !append_assoc.
Qed.

(** ** The news collector *)

Lemma matches_nonneg (keywords : list string) (text : string) :
  (0 <= SKNewsCollector.matches keywords text)%Z.
Proof. unfold SKNewsCollector.matches. lia. Qed.

Lemma matches_zero (keywords : list string) (text : string) :
  SKNewsCollector.matches keywords text = 0%Z
  <-> forall kw, kw ∈ keywords -> SKNewsCollector.occurs text kw = false.
Proof.
  unfold SKNewsCollector.matches. induction keywords as [|k ks IH]; cbn [List.filter].
  - split; [|done]. intros _ ? []%elem_of_nil.
  - destruct (SKNewsCollector.occurs text k) eqn:E.
    + cbn [length]. split; [lia|]. intros H. rewrite H in E; [done|apply list_elem_of_here].
    + rewrite IH. split.
      * intros H kw [->|Hk]%elem_of_cons; auto.
      * intros H kw Hk. apply H. by apply list_elem_of_further.
Qed.

Lemma add_weight_matches (weight : Z) (keywords : list string) (text : string) (score : Z) :
  SKNewsCollector.add_weight weight keywords text score
  = (score + weight * SKNewsCollector.matches keywords text)%Z.
Proof.
  unfold SKNewsCollector.add_weight, SKNewsCollector.matches.
  revert score. induction keywords as [|k ks IH]; intros score; cbn [foldl List.filter].
  - cbn. lia.
  - rewrite IH. destruct (SKNewsCollector.occurs text k); cbn [length]; lia.
Qed.

Lemma relevance_score_sum (row : SKNewsCollector.news_row) :
  SKNewsCollector._calc_relevance_score row
  = (10 * SKNewsCollector.matches SKNewsCollector.company_keywords
            (SKNewsCollector.full_text row)
     + 3 * SKNewsCollector.matches SKNewsCollector.industry_keywords
             (SKNewsCollector.full_text row)
     + 2 * SKNewsCollector.matches SKNewsCollector.business_keywords
             (SKNewsCollector.full_text row)
     + SKNewsCollector.matches SKNewsCollector.trend_keywords
         (SKNewsCollector.full_text row))%Z.
Proof. unfold SKNewsCollector._calc_relevance_score. rewrite !add_weight_matches. lia. Qed.

Lemma relevant_iff_score (row : SKNewsCollector.news_row) :
  SKNewsCollector.relevant row
  = bool_decide (0 < SKNewsCollector._calc_relevance_score row)%Z.
Proof.
  rewrite relevance_score_sum. unfold SKNewsCollector.relevant. cbv zeta.
  set (text := SKNewsCollector.full_text row).
  pose proof (matches_nonneg SKNewsCollector.company_keywords text).
  pose proof (matches_nonneg SKNewsCollector.industry_keywords text).
  pose proof (matches_nonneg SKNewsCollector.trend_keywords text).
  pose proof (matches_nonneg SKNewsCollector.business_keywords text) as Hb.
  destruct (1 <=? _)%Z eqn:E.
  - apply Z.leb_le in E. symmetry. apply bool_decide_eq_true. lia.
  - apply Z.leb_gt in E.
    assert (SKNewsCollector.matches SKNewsCollector.business_keywords text = 0%Z) as Hzero
      by lia.
    rewrite bool_decide_eq_false_2 by lia.
    pose proof (proj1 (matches_zero _ _) Hzero) as Hno.
    assert (forall kw, kw ∈ SKNewsCollector.business_keywords -> lower kw = kw ->
              contains kw text = false) as Hkw.
    { intros kw Hin Hlow. specialize (Hno kw Hin).
      unfold SKNewsCollector.occurs in Hno. by rewrite Hlow in Hno. }
    cbn [existsb].
    rewrite !Hkw; [done|..];
      first [reflexivity
            | unfold SKNewsCollector.business_keywords; rewrite !elem_of_cons; auto 20].
Qed.

(** X11.  On a frame that has a row and a column, [_filter_relevant_news]
    keeps, in their order, exactly the rows whose relevance score
    ([_calc_relevance_score]) is above zero; its fallback test on seven
    business words never adds a row. *)
Theorem filter_keeps_positive_scores (df : list SKNewsCollector.news_row) :
  SKNewsCollector.news_empty df = false ->
  SKNewsCollector._filter_relevant_news df
  = List.filter
      (fun row => bool_decide (0 < SKNewsCollector._calc_relevance_score row)%Z) df.
Proof.
  intros H. unfold SKNewsCollector._filter_relevant_news. rewrite H.
  apply filter_ext. intros row. apply relevant_iff_score.
Qed.

Lemma collect_keywords_plain (keywords : list string) (text : string) (found : list string) :
  SKNewsCollector.collect_keywords false keywords text found
  = (found ++ List.filter (SKNewsCollector.occurs text) keywords)%list.
Proof.
  unfold SKNewsCollector.collect_keywords.
  revert found. induction keywords as [|k ks IH]; intros found; cbn [foldl List.filter].
  - by rewrite app_nil_r.
  - rewrite IH. cbn [negb orb]. rewrite andb_true_r.
    destruct (SKNewsCollector.occurs text k); [|done]. by rewrite <- app_assoc.
Qed.

Lemma collect_keywords_guarded (keywords : list string) (text : string)
    (found : list string) :
  NoDup keywords -> (forall kw, kw ∈ keywords -> kw ∉ found) ->
  SKNewsCollector.collect_keywords true keywords text found
  = (found ++ List.filter (SKNewsCollector.occurs text) keywords)%list.
Proof.
  unfold SKNewsCollector.collect_keywords.
  revert found. induction keywords as [|k ks IH]; intros found Hnd Hfresh;
    cbn [foldl List.filter].
  - by rewrite app_nil_r.
  - inversion Hnd as [|? ? Hk Hnd']; subst. clear Hnd.
    rename Hnd' into Hnd. cbn [negb orb].
    rewrite (bool_decide_eq_false_2 (k ∈ found)) by (apply Hfresh, list_elem_of_here).
    cbn [negb]. rewrite andb_true_r.
    destruct (SKNewsCollector.occurs text k).
    + rewrite IH; [by rewrite <- app_assoc|done|].
      intros kw Hkw [Hin|Hin%list_elem_of_singleton]%elem_of_app.
      * by apply (Hfresh kw); [apply list_elem_of_further|].
      * by subst.
    + apply IH; [done|]. intros kw Hkw. apply Hfresh. by apply list_elem_of_further.
Qed.

Lemma keyword_lists_NoDup :
  NoDup (SKNewsCollector.company_keywords ++ SKNewsCollector.industry_keywords
         ++ SKNewsCollector.business_keywords).
Proof. apply (bool_decide_unpack _). by vm_compute. Qed.

Lemma elem_of_filter_list (f : string -> bool) (l : list string) (x : string) :
  x ∈ List.filter f l -> x ∈ l.
Proof. intros [H _]%list_elem_of_In%filter_In. by apply list_elem_of_In. Qed.

(** X12.  [_extract_keywords] lists, joined by a comma and a space, the
    first eight of the company, industry and business keywords that occur in
    the lowered title, in the order of the three lists; its test against
    keywords already found never rejects one. *)
Theorem extract_keywords_first_eight (text : string) :
  SKNewsCollector._extract_keywords text
  = join ", "
      (take 8 (List.filter (SKNewsCollector.occurs (lower text))
                 (SKNewsCollector.company_keywords ++ SKNewsCollector.industry_keywords
                  ++ SKNewsCollector.business_keywords))).
Proof.
  pose proof keyword_lists_NoDup as Hnd.
  apply list.NoDup_app in Hnd as (_ & Hci & Hnd).
  apply list.NoDup_app in Hnd as (Hi & Hib & Hb).
  unfold SKNewsCollector._extract_keywords. cbv zeta.
  rewrite collect_keywords_plain, app_nil_l.
  rewrite (collect_keywords_guarded SKNewsCollector.industry_keywords); [|done|].
  - rewrite collect_keywords_guarded; [|done|].
    + by rewrite !filter_app, app_assoc.
    + intros kw Hkw [Hin%elem_of_filter_list|Hin%elem_of_filter_list]%elem_of_app.
      * apply (Hci kw Hin). apply elem_of_app. by right.
      * by apply (Hib kw Hin).
  - intros kw Hkw Hin%elem_of_filter_list.
    apply (Hci kw Hin). apply elem_of_app. by left.
Qed.

Lemma add_terms_bounds (terms : list (string * Z)) (text : string) (score : Z) :
  (forall term weight, (term, weight) ∈ terms -> (0 < weight)%Z) ->
  (score <= SKNewsCollector.add_terms terms text score)%Z
  /\ (SKNewsCollector.add_terms terms text score = score
      <-> forall term weight, (term, weight) ∈ terms -> contains term text = false).
Proof.
  unfold SKNewsCollector.add_terms.
  revert score. induction terms as [|[t w] ts IH]; intros score Hpos; cbn [foldl].
  - split; [lia|]. split; [|done]. intros _ ?? []%elem_of_nil.
  - assert (0 < w)%Z as Hw by (apply (Hpos t); apply list_elem_of_here).
    assert (forall term weight, (term, weight) ∈ ts -> (0 < weight)%Z) as Hpos'
      by (intros ?? ?; eapply Hpos; by apply list_elem_of_further).
    destruct (contains t text) eqn:E.
    + destruct (IH (score + w)%Z Hpos') as [Hle _]. split; [lia|].
      split; [lia|]. intros H. rewrite (H t w) in E; [done|apply list_elem_of_here].
    + destruct (IH score Hpos') as [Hle Hiff]. split; [done|].
      rewrite Hiff. split.
      * intros H term weight [[= -> ->]|Hin]%elem_of_cons; eauto.
      * intros H term weight Hin. eapply H. by apply list_elem_of_further.
Qed.

(** X13.  The importance of a title ([_calc_importance]) lies between 0 and
    10, and is 0 exactly when none of the nine weighted business terms
    occurs in the lowered title. *)
Theorem importance_bounds (text : string) :
  (0 <= SKNewsCollector._calc_importance text <= 10)%Z
  /\ (SKNewsCollector._calc_importance text = 0%Z
      <-> forall term weight, (term, weight) ∈ SKNewsCollector.business_terms ->
            contains term (lower text) = false).
Proof.
  unfold SKNewsCollector._calc_importance. cbv zeta.
  destruct (add_terms_bounds SKNewsCollector.business_terms (lower text) 0) as [Hle Hiff].
  { intros term weight Hin. unfold SKNewsCollector.business_terms in Hin.
    rewrite !elem_of_cons, elem_of_nil in Hin.
    destruct_or!; simplify_eq; lia. }
  split; [lia|]. rewrite <- Hiff. lia.
Qed.

Lemma any_in_true (terms : list string) (text : string) :
  SKNewsCollector.any_in terms text = true
  <-> exists term, term ∈ terms /\ contains term text = true.
Proof.
  unfold SKNewsCollector.any_in. rewrite existsb_exists.
  split; intros (term & Hin & H); exists term; split; try done; by apply list_elem_of_In.
Qed.

Lemma any_in_false (terms : list string) (text : string) :
  SKNewsCollector.any_in terms text = false
  <-> forall term, term ∈ terms -> contains term text = false.
Proof.
  rewrite <- not_true_iff_false, any_in_true. split.
  - intros H term Hin. destruct (contains term text) eqn:E; [|done].
    destruct H. by exists term.
  - intros H (term & Hin & E). by rewrite (H term Hin) in E.
Qed.

(** X14.  The SK relevance of a title ([_calc_sk_relevance]) never reaches
    the cap of 10 the code applies: it is at most 8.  It is 5 or more exactly
    when the lowered title contains sk or its Korean spelling; the two longer
    SK terms of the list add nothing. *)
Theorem sk_relevance_below_cap (text : string) :
  (0 <= SKNewsCollector._calc_sk_relevance text <= 8)%Z
  /\ ((5 <= SKNewsCollector._calc_sk_relevance text)%Z
      <-> contains "sk" (lower text) = true \/ contains "에스케이" (lower text) = true).
Proof.
  unfold SKNewsCollector._calc_sk_relevance. cbv zeta.
  destruct (SKNewsCollector.any_in ["sk"; "에스케이"; "sk에너지"; "sk이노베이션"] (lower text))
    eqn:Hsk.
  - assert (contains "sk" (lower text) = true \/ contains "에스케이" (lower text) = true)
      as Hshort.
    { apply any_in_true in Hsk as (term & Hin & Hterm).
      rewrite !elem_of_cons, elem_of_nil in Hin.
      destruct Hin as [->|[->|[->|[->|[]]]]]; auto;
        left; (eapply contains_trans; [|exact Hterm]); reflexivity. }
    clear Hsk.
    destruct (SKNewsCollector.any_in _ _); destruct (SKNewsCollector.any_in _ _);
      cbv beta iota; (split; [lia|]); (split; [done|lia]).
  - assert (~ (contains "sk" (lower text) = true \/ contains "에스케이" (lower text) = true))
      as Hshort.
    { rewrite any_in_false in Hsk.
      intros [H|H]; rewrite Hsk in H; try done; rewrite !elem_of_cons; auto. }
    clear Hsk.
    destruct (SKNewsCollector.any_in _ _); destruct (SKNewsCollector.any_in _ _);
      cbv beta iota; (split; [lia|]); (split; [lia|done]).
Qed.

Lemma extract_company_named (text : string) :
  SKNewsCollector._extract_company text <> "기타"
  -> exists key value, (key, value) ∈ SKNewsCollector.company_mapping
       /\ contains key (lower text) = true.
Proof.
  unfold SKNewsCollector._extract_company. cbv zeta.
  destruct (List.find _ _) as [[key value]|] eqn:E; [|done].
  intros _. apply find_some in E as [Hin E]. exists key, value.
  split; [by apply list_elem_of_In|done].
Qed.

(** X15.  [_extract_company] answers with the catch-all name exactly when no
    key of its mapping occurs in the lowered title, and otherwise with one of
    the four company names of the mapping. *)
Theorem extract_company_other_iff (text : string) :
  (SKNewsCollector._extract_company text = "기타"
   <-> forall key value, (key, value) ∈ SKNewsCollector.company_mapping ->
         contains key (lower text) = false)
  /\ SKNewsCollector._extract_company text
     ∈ ["SK에너지"; "SK이노베이션"; "GS칼텍스"; "HD현대오일뱅크"; "S-Oil"; "기타"].
Proof.
  unfold SKNewsCollector._extract_company. cbv zeta.
  destruct (List.find _ _) as [[key value]|] eqn:E.
  - apply find_some in E as [Hin%list_elem_of_In E]. split.
    + split.
      * intros ->. unfold SKNewsCollector.company_mapping in Hin.
        rewrite !elem_of_cons, elem_of_nil in Hin. destruct_or!; simplify_eq.
      * intros H. by rewrite (H key value Hin) in E.
    + unfold SKNewsCollector.company_mapping in Hin.
      rewrite !elem_of_cons, elem_of_nil in Hin. rewrite !elem_of_cons.
      destruct_or!; simplify_eq; auto 10.
  - split; [|rewrite !elem_of_cons; auto 10].
    split; [|done]. intros _ key value Hin%list_elem_of_In.
    apply (find_none _ _ E (key, value) Hin).
Qed.

Lemma contains_app_l (p a b : string) :
  contains p a = true -> contains p (a ++ b) = true.
Proof.
  rewrite !contains_app. intros (x & y & ->). exists x, (y ++ b).
  by rewrite !append_assoc.
Qed.

Lemma matches_pos (keywords : list string) (text kw : string) :
  kw ∈ keywords -> SKNewsCollector.occurs text kw = true ->
  (1 <= SKNewsCollector.matches keywords text)%Z.
Proof.
  intros Hin Hocc. pose proof (matches_nonneg keywords text) as Hnn.
  destruct (decide (SKNewsCollector.matches keywords text = 0%Z)) as [H0|]; [|lia].
  rewrite matches_zero in H0. by rewrite (H0 kw Hin) in Hocc.
Qed.

(** X16.  A row whose title [_extract_company] attributes to a company is
    never dropped by [_filter_relevant_news]; its relevance score is at
    least 10 and the SK relevance of its title at least 1. *)
Theorem named_company_row_is_kept (df : list SKNewsCollector.news_row)
    (row : SKNewsCollector.news_row) (title : string) :
  row ∈ df -> row !! "제목" = Some title ->
  SKNewsCollector._extract_company title <> "기타" ->
  row ∈ SKNewsCollector._filter_relevant_news df
  /\ (10 <= SKNewsCollector._calc_relevance_score row)%Z
  /\ (1 <= SKNewsCollector._calc_sk_relevance title)%Z.
Proof.
  intros Hrow Htitle (key & value & Hin & Hkey)%extract_company_named.
  assert (exists kw, kw ∈ SKNewsCollector.company_keywords /\ lower kw = key) as (kw & Hkw & Hlow).
  { unfold SKNewsCollector.company_mapping in Hin.
    rewrite !elem_of_cons, elem_of_nil in Hin.
    destruct_or!; simplify_eq;
      [exists "SK에너지"|exists "SK이노베이션"|exists "GS칼텍스"|exists "HD현대오일뱅크"
      |exists "현대오일뱅크"|exists "S-Oil"|exists "에쓰오일"];
      (split; [|reflexivity]); unfold SKNewsCollector.company_keywords;
      rewrite !elem_of_cons; auto 10. }
  assert (10 <= SKNewsCollector._calc_relevance_score row)%Z as Hscore.
  { rewrite relevance_score_sum.
    pose proof (matches_pos SKNewsCollector.company_keywords
                  (SKNewsCollector.full_text row) kw Hkw) as Hpos.
    pose proof (matches_nonneg SKNewsCollector.industry_keywords (SKNewsCollector.full_text row)).
    pose proof (matches_nonneg SKNewsCollector.business_keywords (SKNewsCollector.full_text row)).
    pose proof (matches_nonneg SKNewsCollector.trend_keywords (SKNewsCollector.full_text row)).
    enough (1 <= SKNewsCollector.matches SKNewsCollector.company_keywords
                   (SKNewsCollector.full_text row))%Z by lia.
    apply Hpos. unfold SKNewsCollector.occurs, SKNewsCollector.full_text,
      SKNewsCollector.cell. rewrite Htitle, Hlow. cbn [default].
    by apply contains_app_l. }
  split; [|split; [done|]].
  - unfold SKNewsCollector._filter_relevant_news.
    destruct (SKNewsCollector.news_empty df); [done|].
    apply list_elem_of_In, filter_In. split; [by apply list_elem_of_In|].
    rewrite relevant_iff_score. apply bool_decide_eq_true. lia.
  - clear kw Hkw Hlow Hscore.
    unfold SKNewsCollector._calc_sk_relevance. cbv zeta.
    unfold SKNewsCollector.company_mapping in Hin.
    rewrite !elem_of_cons, elem_of_nil in Hin.
    assert (SKNewsCollector.any_in ["sk"; "에스케이"; "sk에너지"; "sk이노베이션"]
              (lower title) = true
            \/ SKNewsCollector.any_in ["gs칼텍스"; "현대오일뱅크"; "s-oil"; "에쓰오일"]
                 (lower title) = true) as [->| ->].
    { rewrite !any_in_true.
      destruct_or!; simplify_eq;
        [left; exists "sk에너지"|left; exists "sk이노베이션"|right; exists "gs칼텍스"
        |right; exists "현대오일뱅크"|right; exists "현대오일뱅크"|right; exists "s-oil"
        |right; exists "에쓰오일"];
        (split; [rewrite !elem_of_cons; auto 10|]); try done.
      eapply contains_trans; [|exact Hkey]. reflexivity. }
    + destruct (SKNewsCollector.any_in _ _); destruct (SKNewsCollector.any_in _ _);
        cbv beta iota; lia.
    + destruct (SKNewsCollector.any_in _ _); destruct (SKNewsCollector.any_in _ _);
        cbv beta iota; lia.
Qed.

(** ** The table of [collect_quarterly_data] *)

Lemma dict_truthy_empty {V} : dict_truthy (∅ : gmap string V) = false.
Proof. by apply dict_truthy_false. Qed.

Lemma quarter_absent (curr : gmap string (gmap string pyfloat)) (q : string) :
  curr !! q = None -> dict_truthy (quarter curr q) = false.
Proof. intros H. unfold quarter. rewrite H. by apply dict_truthy_false. Qed.

Lemma quarter_fetched (curr : gmap string (gmap string pyfloat)) (q : string) amounts :
  curr !! q = Some amounts -> quarter curr q = amounts.
Proof. intros H. unfold quarter. by rewrite H. Qed.

Lemma derived_q4_falsy (curr : gmap string (gmap string pyfloat)) :
  curr !! "Q4" = None -> dict_truthy (derived_q4 curr) = false.
Proof. intros H. rewrite (derived_q4_absent curr H). by apply dict_truthy_false. Qed.

Section TableFacts.

Variable resolve : string -> option string.
Variable get_financial_statement : string -> string -> string -> DataFrame.

(** X17.  For a company that resolves, the quarter labels of the table of
    [collect_quarterly_data], read top to bottom, are: Q1, Q2 and Q3 for
    each of the three quarterly filings that gave a frame, then Q4 and the
    annual label together when the annual filing gave one.  The table has no
    other row. *)
Theorem table_rows_in_order (company_name : string) (year : Z) :
  text_truthy (resolve company_name) = true ->
  (fun row : gmap string value => row !! "분기")
    <$> collect_quarterly_data resolve get_financial_statement company_name year
  = (fun label => Some (VStr label))
    <$> table_labels year
          (fun code => negb (empty (get_financial_statement
                                      (default "" (resolve company_name))
                                      (pretty year) code))).
Proof.
  intros Hcorp. rewrite collect_unfold, Hcorp. cbv zeta.
  set (corp := default "" (resolve company_name)).
  destruct (collect_raw_lookup get_financial_statement corp year "Q1" "11013") as [H1 _];
    [unfold report_codes; rewrite !elem_of_cons; auto 10|].
  destruct (collect_raw_lookup get_financial_statement corp year "Q2" "11012") as [H2 _];
    [unfold report_codes; rewrite !elem_of_cons; auto 10|].
  destruct (collect_raw_lookup get_financial_statement corp year "Q3" "11014") as [H3 _];
    [unfold report_codes; rewrite !elem_of_cons; auto 10|].
  destruct (collect_raw_lookup get_financial_statement corp year "Q4" "11011") as [H4 H4c];
    [unfold report_codes; rewrite !elem_of_cons; auto 10|].
  destruct (collect_raw get_financial_statement corp year) as [curr cum].
  cbn [fst snd] in *. unfold slice_curr, slice_cum in *.
  unfold table_labels, build_rows. cbv zeta.
  destruct (empty (get_financial_statement corp (pretty year) "11013"));
    destruct (empty (get_financial_statement corp (pretty year) "11012"));
    destruct (empty (get_financial_statement corp (pretty year) "11014"));
    destruct (empty (get_financial_statement corp (pretty year) "11011"));
    rewrite H4c; cbn [negb];
    first [ rewrite (quarter_absent curr _ H1)
          | rewrite (quarter_fetched curr _ _ H1), extract_truthy ];
    first [ rewrite (quarter_absent curr _ H2)
          | rewrite (quarter_fetched curr _ _ H2), extract_truthy ];
    first [ rewrite (quarter_absent curr _ H3)
          | rewrite (quarter_fetched curr _ _ H3), extract_truthy ];
    first [ rewrite (derived_q4_falsy curr H4)
          | rewrite (derived_q4_truthy curr _ H4 (extract_truthy _ _)) ];
    first [ rewrite (lookup_truthy curr _ _ H1) | rewrite (lookup_truthy curr _ _ H2)
          | rewrite (lookup_truthy curr _ _ H3) | rewrite (lookup_truthy curr _ _ H4)
          | destruct (dict_truthy curr) ];
    cbn [app fmap list_fmap]; by rewrite ?build_label.
Qed.

(** X18.  When the annual filing gave a frame, the last row of the table is
    the annual row, and its amounts are read from the cumulative column of
    that frame, or from the current-period column when the frame has no
    cumulative column. *)
Theorem annual_row_is_last (company_name : string) (year : Z) :
  text_truthy (resolve company_name) = true ->
  empty (get_financial_statement (default "" (resolve company_name)) (pretty year) "11011")
  = false ->
  let df := get_financial_statement (default "" (resolve company_name)) (pretty year)
              "11011" in
  list.last (collect_quarterly_data resolve get_financial_statement company_name year)
  = Some (_build_display_row company_name year (pretty year ++ " 연간")
            (_extract_raw_amounts df
               (if has_column thstrm_add_amount df then thstrm_add_amount
                else thstrm_amount))
            (Some "연간(사업보고서)")).
Proof.
  intros Hcorp Hdf df. rewrite collect_unfold, Hcorp. cbv zeta.
  destruct (collect_raw_lookup get_financial_statement
              (default "" (resolve company_name)) year "Q4" "11011") as [H4 H4c];
    [unfold report_codes; rewrite !elem_of_cons; auto 10|].
  destruct (collect_raw get_financial_statement _ year) as [curr cum].
  cbn [fst snd] in *. unfold slice_curr, slice_cum in *. rewrite Hdf in H4, H4c.
  rewrite (lookup_truthy curr _ _ H4).
  unfold build_rows. cbv zeta. rewrite H4c, !app_assoc, last_snoc.
  fold df. by destruct (has_column thstrm_add_amount df).
Qed.

End TableFacts.

(** ** Columns of a display row *)

Lemma scaled_dom_within raw key field unit (row : gmap string value) (S : gset string) :
  field ∈ S -> dom row ⊆ S -> dom (scaled raw key field unit row) ⊆ S.
Proof.
  intros Hf Hrow. unfold scaled. destruct (raw !! key) as [x|]; [|done].
  destruct (truthy x); [|done]. rewrite dom_insert. apply union_least; [by apply singleton_subseteq_l|done].
Qed.

Lemma ratio_dom_within raw sales key field (row : gmap string value) (S : gset string) :
  field ∈ S -> dom row ⊆ S -> dom (ratio raw sales key field row) ⊆ S.
Proof.
  intros Hf Hrow. unfold ratio. destruct (raw !! key) as [x|]; [|done].
  rewrite dom_insert. apply union_least; [by apply singleton_subseteq_l|done].
Qed.

Lemma display_column (field : string) :
  bool_decide (field ∈ display_columns) = true ->
  field ∈ (list_to_set display_columns : gset string).
Proof. intros H%bool_decide_eq_true. by apply elem_of_list_to_set. Qed.

(** X19.  A display row has no column outside the fourteen of
    [display_columns]; the selling and the administrative expenses the
    extractor reads get no column.  The company, year and quarter columns
    are always there. *)
Theorem display_row_columns (company_name : string) (year : Z) (label : string)
    (raw : gmap string pyfloat) (report_name : option string) :
  dom (_build_display_row company_name year label raw report_name)
  ⊆ list_to_set display_columns
  /\ forall field, field ∈ ["회사"; "연도"; "분기"] ->
       is_Some (_build_display_row company_name year label raw report_name !! field).
Proof.
  split.
  - unfold _build_display_row. cbv zeta.
    destruct (truthy (default zero (raw !! "매출액")));
      repeat first [ apply ratio_dom_within; [by apply display_column|]
                   | apply scaled_dom_within; [by apply display_column|] ];
      destruct (text_truthy report_name);
      rewrite !dom_insert, dom_empty;
      repeat (apply union_least; [apply singleton_subseteq_l; by apply display_column|]);
      apply empty_subseteq.
  - intros field Hin. unfold _build_display_row. cbv zeta.
    rewrite !elem_of_cons, elem_of_nil in Hin.
    destruct Hin as [->|[->|[->|[]]]];
      destruct (truthy (default zero (raw !! "매출액"))); skip_fields;
      destruct (text_truthy report_name);
      rewrite ?lookup_insert_ne by done; by rewrite lookup_insert_eq.
Qed.

(** ** Synonyms that overlap *)

Lemma head_filter_within {A} (p q : A -> bool) (l : list A) (r : A) :
  (forall x, q x = true -> p x = true) ->
  head (List.filter p l) = Some r -> q r = true ->
  head (List.filter q l) = Some r.
Proof.
  intros Hqp. induction l as [|a l IH]; [done|]. cbn [List.filter].
  destruct (p a) eqn:Hp.
  - intros [= ->] Hq. by rewrite Hq.
  - intros Hhead Hq. destruct (q a) eqn:Hqa; [|by apply IH].
    by rewrite (Hqp a Hqa) in Hp.
Qed.

Lemma str_contains_within (short long : string) (cell : option string) :
  contains (lower short) (lower long) = true ->
  str_contains long cell = true -> str_contains short cell = true.
Proof.
  intros Hsl. destruct cell as [name|]; [|done]. cbn [str_contains].
  by apply contains_trans.
Qed.

(** X20.  In [_extract_raw_amounts] the synonyms of the selling and of the
    administrative expenses also match a line of selling and administrative
    expenses: when the first line matching one of them is such a line and
    its amount parses, that amount is stored both as the SG&A amount and as
    the selling (or administrative) expenses. *)
Theorem sga_line_read_as_its_parts (df : DataFrame) (c : column) (key : string)
    (r : account_line) (v : pyfloat) :
  key ∈ ["판매비"; "관리비"] ->
  head (matching df key) = Some r ->
  str_contains "판매비와관리비" (account_nm r) = true ->
  parse_amount (get_text df c r) = Some v ->
  _extract_raw_amounts df c !! "판관비" = Some v
  /\ _extract_raw_amounts df c !! key = Some v.
Proof.
  intros Hkey Hhead Hsga Hparse.
  assert (head (matching df "판매비와관리비") = Some r) as Hhead'.
  { unfold matching in *.
    apply (head_filter_within (fun r => str_contains key (account_nm r))); [|done|done].
    intros x. apply str_contains_within.
    rewrite !elem_of_cons, elem_of_nil in Hkey. by destruct Hkey as [->|[->|[]]]. }
  split.
  - rewrite (extract_lookup df c "판관비"
               ["판매비와관리비"; "판관비"; "selling and administrative"]).
    + rewrite find_amount_step. unfold resolves. rewrite Hhead'. cbn [mbind option_bind].
      by rewrite Hparse.
    + unfold metrics. rewrite !elem_of_cons. auto 10.
  - rewrite !elem_of_cons, elem_of_nil in Hkey. destruct Hkey as [->|[->|[]]].
    + rewrite (extract_lookup df c "판매비" ["판매비"; "selling expenses"]).
      * rewrite find_amount_step. unfold resolves. rewrite Hhead. cbn [mbind option_bind].
        by rewrite Hparse.
      * unfold metrics. rewrite !elem_of_cons. auto 10.
    + rewrite (extract_lookup df c "관리비" ["관리비"; "administrative expenses"]).
      * rewrite find_amount_step. unfold resolves. rewrite Hhead. cbn [mbind option_bind].
        by rewrite Hparse.
      * unfold metrics. rewrite !elem_of_cons. auto 10.
Qed.

(** ** The properties at sample inputs *)

(** X2 at the figure 500. *)
Lemma key_metrics_sign_is_lost_witness :
  all_digits "500" = true
  /\ parse_amount "-500" = Some (of_Z (-500))
  /\ KeyMetrics.parse_amount "-500" = Some (of_Z 500)
  /\ parse_amount "(500)" = Some (of_Z (-500))
  /\ KeyMetrics.parse_amount "(500)" = None.
Proof.
  split; [reflexivity|].
  exact (key_metrics_sign_is_lost "500" ltac:(discriminate) eq_refl).
Defined.


(** X5 at a company found by its name. *)
Lemma corp_code_search_sound_witness :
  DartAPICollector.get_corp_code_enhanced Examples.isdigit ∅ (Some Examples.companies)
    "GS칼텍스"
  = Some "00165413"
  /\ exists all_companies c search_name,
       Some Examples.companies = Some all_companies
       /\ c ∈ all_companies
       /\ DartAPICollector.code c = Some "00165413"
       /\ search_name ∈ default ["GS칼텍스"] ((∅ : gmap string (list string)) !! "GS칼텍스")
       /\ (DartAPICollector.name c = Some search_name
           \/ (Examples.isdigit search_name = true
               /\ DartAPICollector.stock_code c = Some search_name)).
Proof.
  split; [reflexivity|].
  exact (corp_code_search_sound Examples.isdigit ∅ (Some Examples.companies)
           "GS칼텍스" "00165413" eq_refl).
Defined.

(** X6 at a company that is not in the list. *)
Lemma corp_code_search_complete_witness :
  DartAPICollector.get_corp_code_enhanced Examples.isdigit ∅ (Some Examples.companies)
    "에쓰오일"
  = None.
Proof.
  apply (corp_code_search_complete Examples.isdigit ∅ (Some Examples.companies) "에쓰오일").
  intros all_companies [= <-] search_name c Hs Hc.
  change (search_name ∈ ["에쓰오일"]) in Hs. apply list_elem_of_singleton in Hs as ->.
  unfold Examples.companies in Hc. rewrite !elem_of_cons, elem_of_nil in Hc.
  destruct Hc as [->|[->|[]]]; split; discriminate.
Defined.

(** X7 at a year with a first-quarter filing only. *)
Lemma auto_first_in_order_witness :
  (forall earlier, earlier ∈ ["11011"; "11014"; "11012"] ->
     empty (Examples.fetch_q1_only (default "" (Examples.resolve "SK")) (pretty 2024%Z)
              earlier) = true)
  /\ DartAPICollector.get_company_financials_auto Examples.resolve Examples.fetch_q1_only
       ∅ "SK" 2024
     = (Some Examples.q1_frame,
        DartAPICollector._save_source_info ∅ "SK" "00126380" "11013" "2024"
          "00126380_2024_11013_sample").
Proof.
  assert (forall earlier, earlier ∈ ["11011"; "11014"; "11012"] ->
            empty (Examples.fetch_q1_only (default "" (Examples.resolve "SK"))
                     (pretty 2024%Z) earlier) = true) as H.
  { intros earlier. rewrite !elem_of_cons, elem_of_nil. by intros [->|[->|[->|[]]]]. }
  split; [exact H|].
  exact (auto_first_in_order Examples.resolve Examples.fetch_q1_only ∅ "SK" 2024
           ["11011"; "11014"; "11012"] "11013" [] eq_refl eq_refl H eq_refl).
Defined.

(** X11 at the two sample news rows. *)
Lemma filter_keeps_positive_scores_witness :
  SKNewsCollector.news_empty Examples.news = false
  /\ SKNewsCollector._filter_relevant_news Examples.news
     = List.filter
         (fun row => bool_decide (0 < SKNewsCollector._calc_relevance_score row)%Z)
         Examples.news.
Proof.
  assert (SKNewsCollector.news_empty Examples.news = false) as H by (by vm_compute).
  split; [exact H|].
  exact (filter_keeps_positive_scores Examples.news H).
Defined.

(** X16 at the news row that names SK Energy. *)
Lemma named_company_row_is_kept_witness :
  SKNewsCollector._extract_company "SK에너지 실적 발표" = "SK에너지"
  /\ Examples.news_item "SK에너지 실적 발표" "3분기 영업이익"
     ∈ SKNewsCollector._filter_relevant_news Examples.news
  /\ (10 <= SKNewsCollector._calc_relevance_score
              (Examples.news_item "SK에너지 실적 발표" "3분기 영업이익"))%Z
  /\ (1 <= SKNewsCollector._calc_sk_relevance "SK에너지 실적 발표")%Z.
Proof.
  assert (SKNewsCollector._extract_company "SK에너지 실적 발표" = "SK에너지") as H
    by (by vm_compute).
  split; [exact H|].
  apply (named_company_row_is_kept Examples.news
           (Examples.news_item "SK에너지 실적 발표" "3분기 영업이익") "SK에너지 실적 발표").
  - apply list_elem_of_here.
  - by vm_compute.
  - rewrite H. discriminate.
Defined.

(** X17 at a year with a first-quarter and an annual filing. *)
Lemma table_rows_in_order_witness :
  (fun row : gmap string value => row !! "분기")
    <$> collect_quarterly_data Examples.resolve Examples.fetch_q1_and_blank_annual "SK" 2024
  = [Some (VStr "2024Q1"); Some (VStr "2024Q4"); Some (VStr "2024 연간")].
Proof.
  exact (table_rows_in_order Examples.resolve Examples.fetch_q1_and_blank_annual "SK" 2024
           eq_refl).
Defined.

(** X18 at a year whose only filing is the annual one, without a cumulative
    column. *)
Lemma annual_row_is_last_witness :
  list.last (collect_quarterly_data Examples.resolve Examples.fetch_blank_annual_only
               "SK" 2024)
  = Some (_build_display_row "SK" 2024 "2024 연간"
            (_extract_raw_amounts Examples.blank_frame thstrm_amount)
            (Some "연간(사업보고서)")).
Proof.
  exact (annual_row_is_last Examples.resolve Examples.fetch_blank_annual_only "SK" 2024
           eq_refl eq_refl).
Defined.

(** X20 at a record whose only expense line is the selling and
    administrative expenses. *)
Lemma sga_line_read_as_its_parts_witness :
  head (matching Examples.sga_frame "판매비") = Some (Examples.line "판매비와관리비" "300")
  /\ _extract_raw_amounts Examples.sga_frame thstrm_amount !! "판관비" = Some (of_Z 300)
  /\ _extract_raw_amounts Examples.sga_frame thstrm_amount !! "판매비" = Some (of_Z 300).
Proof.
  assert (parse_amount (get_text Examples.sga_frame thstrm_amount
                          (Examples.line "판매비와관리비" "300")) = Some (of_Z 300)) as H
    by float_refl.
  split; [reflexivity|].
  exact (sga_line_read_as_its_parts Examples.sga_frame thstrm_amount "판매비"
           (Examples.line "판매비와관리비" "300") (of_Z 300)
           ltac:(apply list_elem_of_here) eq_refl eq_refl H).
Defined.
